(** * pulp_deb: the repository synchronisation engine and its progress report

    A shallow embedding of
    - [common/pulp_deb/common/constants.py],
    - [common/pulp_deb/common/publish_progress.py] (class [PublishProgressReport]),
    - [plugins/pulp_deb/plugins/importers/sync.py] (class [PackageSyncRun]),
    followed by the properties of the specification that were checked on it.

    Conventions of the embedding
    - Python strings are [string]; [None]-able attributes are [option];
      Python [int] is [Z].
    - A Python [set] is a [gset string]; [list(s)] is [elements s] (Python
      promises no particular order, and none is relied upon).
    - A [dict] with computed keys is a [gmap]; a [dict] literal with fixed
      keys (the sections of a progress snapshot) is a record whose fields
      carry the keys' names.
    - Calls into collaborators that live outside the repository (the Pulp
      conduit, the downloader, the file system, the metadata parser) are
      recorded, in order, in the run state; whether such a call raises is
      decided by the environment. *)

From Stdlib Require Import ZArith Lia Ascii.
From stdpp Require Import gmap strings list fin_maps.

Open Scope string_scope.
Open Scope list_scope.
Open Scope Z_scope.

(** ** constants.py *)

Module constants.

Definition TYPE_DEB : string := "deb".

Definition CONFIG_DIST : string := "dist".

Definition STATE_NOT_STARTED : string := "not-started".
Definition STATE_RUNNING : string := "running".
Definition STATE_SUCCESS : string := "success".
Definition STATE_FAILED : string := "failed".
Definition STATE_SKIPPED : string := "skipped".

Definition COMPLETE_STATES : list string :=
  [STATE_SUCCESS; STATE_FAILED; STATE_SKIPPED].

Definition CONFIG_REMOVE_MISSING : string := "remove_missing".
Definition DEFAULT_REMOVE_MISSING : bool := false.

End constants.

(** ** Python values shared by both report classes *)

(** An exception instance. [exc_is_Exception] tells whether its class derives
    from [Exception]: a clause [except Exception, e] catches exactly those;
    [KeyboardInterrupt] and [SystemExit] do not derive from it.
    [exc_traceback] stands for the traceback object that [sys.exc_info()[2]]
    yields while the exception is handled. *)
Record PyExc := {
  exc_is_Exception : bool;
  exc_name : string;
  exc_traceback : string
}.

#[global] Instance PyExc_eq_dec : EqDecision PyExc.
Proof. solve_decision. Defined.

(** What a [*_exception] or [*_traceback] attribute of a report can hold:
    [None], the live object, or (on a report rebuilt from a snapshot) the
    text the server formatted. *)
Inductive ErrorInfo :=
| NoError
| ExceptionObject (e : PyExc)
| TracebackObject (tb : string)
| FormattedText (text : string).

(** A value read back from a snapshot: [None] or text. *)
Definition of_snapshot_text (t : option string) : ErrorInfo :=
  match t with
  | None => NoError
  | Some s => FormattedText s
  end.

(** The report handed back to Pulp: what [conduit.build_success_report] and
    [conduit.build_failure_report] construct from a summary and details. *)
Record FinalReport := {
  success_flag : bool;
  summary_total_execution_time : Z;
  details : gmap string string
}.

Definition build_success_report (total : Z) (d : gmap string string) : FinalReport :=
  {| success_flag := true; summary_total_execution_time := total; details := d |}.

Definition build_failure_report (total : Z) (d : gmap string string) : FinalReport :=
  {| success_flag := false; summary_total_execution_time := total; details := d |}.

(** ** publish_progress.py *)

Module publish_progress.
Import constants.

(** Instance attributes of [PublishProgressReport], in the order of
    [__init__]. [conduit] is [None] on an instance rebuilt client-side. *)
Record PublishProgressReport := {
  conduit : option positive;

  packages_state : string;
  packages_execution_time : option Z;
  packages_total_count : option Z;
  packages_finished_count : option Z;
  packages_error_count : option Z;
  packages_individual_errors : option (gmap string (option string));
  packages_error_message : option string;
  packages_exception : ErrorInfo;
  packages_traceback : ErrorInfo;

  metadata_state : string;
  metadata_execution_time : option Z;
  metadata_error_message : option string;
  metadata_exception : ErrorInfo;
  metadata_traceback : ErrorInfo;

  publish_http : string;
  publish_https : string
}.

(** [__init__(self, conduit)] *)
Definition __init__ (c : option positive) : PublishProgressReport :=
  {| conduit := c;
     packages_state := STATE_NOT_STARTED;
     packages_execution_time := None;
     packages_total_count := None;
     packages_finished_count := None;
     packages_error_count := None;
     packages_individual_errors := None;
     packages_error_message := None;
     packages_exception := NoError;
     packages_traceback := NoError;
     metadata_state := STATE_NOT_STARTED;
     metadata_execution_time := None;
     metadata_error_message := None;
     metadata_exception := NoError;
     metadata_traceback := NoError;
     publish_http := STATE_NOT_STARTED;
     publish_https := STATE_NOT_STARTED |}.

(** The three sections of a snapshot; field [x_key] is the entry ['key']. *)
Record PackagesSection := {
  p_state : string;
  p_execution_time : option Z;
  p_total_count : option Z;
  p_finished_count : option Z;
  p_error_count : option Z;
  p_individual_errors : option (gmap string (option string));
  p_error_message : option string;
  p_error : option string;
  p_traceback : option string
}.

Record MetadataSection := {
  m_state : string;
  m_execution_time : option Z;
  m_error_message : option string;
  m_error : option string;
  m_traceback : option string
}.

Record PublishingSection := {
  pub_http : string;
  pub_https : string
}.

(** The snapshot: entries ['packages'], ['metadata'], ['publishing']. *)
Record ProgressDict := {
  d_packages : PackagesSection;
  d_metadata : MetadataSection;
  d_publishing : PublishingSection
}.

Section Reporting.
(** [pulp_deb.common.reporting] is not part of the sources at hand; its
    two formatters are taken as they come: each turns an attribute value
    into text or [None]. *)
Variable format_exception : ErrorInfo -> option string.
Variable format_traceback : ErrorInfo -> option string.

Definition _packages_section (self : PublishProgressReport) : PackagesSection :=
  {| p_state := packages_state self;
     p_execution_time := packages_execution_time self;
     p_total_count := packages_total_count self;
     p_finished_count := packages_finished_count self;
     p_error_count := packages_error_count self;
     p_individual_errors := packages_individual_errors self;
     p_error_message := packages_error_message self;
     p_error := format_exception (packages_exception self);
     p_traceback := format_traceback (packages_traceback self) |}.

Definition _metadata_section (self : PublishProgressReport) : MetadataSection :=
  {| m_state := metadata_state self;
     m_execution_time := metadata_execution_time self;
     m_error_message := metadata_error_message self;
     m_error := format_exception (metadata_exception self);
     m_traceback := format_traceback (metadata_traceback self) |}.

Definition _publishing_section (self : PublishProgressReport) : PublishingSection :=
  {| pub_http := publish_http self;
     pub_https := publish_https self |}.

Definition build_progress_report (self : PublishProgressReport) : ProgressDict :=
  {| d_packages := _packages_section self;
     d_metadata := _metadata_section self;
     d_publishing := _publishing_section self |}.
End Reporting.

(** [from_progress_dict(cls, report)]: [r = cls(None)], then every
    attribute is overwritten from the snapshot. *)
Definition from_progress_dict (report : ProgressDict) : PublishProgressReport :=
  let r := __init__ None in
  let m := d_packages report in
  let n := d_metadata report in
  let p := d_publishing report in
  {| conduit := conduit r;
     packages_state := p_state m;
     packages_execution_time := p_execution_time m;
     packages_total_count := p_total_count m;
     packages_finished_count := p_finished_count m;
     packages_error_count := p_error_count m;
     packages_individual_errors := p_individual_errors m;
     packages_error_message := p_error_message m;
     packages_exception := of_snapshot_text (p_error m);
     packages_traceback := of_snapshot_text (p_traceback m);
     metadata_state := m_state n;
     metadata_execution_time := m_execution_time n;
     metadata_error_message := m_error_message n;
     metadata_exception := of_snapshot_text (m_error n);
     metadata_traceback := of_snapshot_text (m_traceback n);
     publish_http := pub_http p;
     publish_https := pub_https p |}.

(** [build_final_report(self)]. The report is built by the conduit, so the
    call fails ([None] here, an [AttributeError] in Python) on an instance
    whose conduit is [None]. *)
Definition build_final_report (self : PublishProgressReport) : option FinalReport :=
  let total_execution_time :=
    match metadata_execution_time self, packages_execution_time self with
    | Some mt, Some pt => mt + pt
    | _, _ => -1
    end in
  let summary := total_execution_time in
  let details : gmap string string := ∅ in
  let all_step_states := [metadata_state self; packages_state self] in
  let unsuccessful_steps := filter (λ s, s ≠ STATE_SUCCESS) all_step_states in
  match conduit self with
  | None => None
  | Some _ =>
      if (length unsuccessful_steps =? 0)%nat
      then Some (build_success_report summary details)
      else Some (build_failure_report summary details)
  end.

(** Overwriting the two publish attributes. *)
Definition with_publish (http https : string) (self : PublishProgressReport)
  : PublishProgressReport :=
  {| conduit := conduit self;
     packages_state := packages_state self;
     packages_execution_time := packages_execution_time self;
     packages_total_count := packages_total_count self;
     packages_finished_count := packages_finished_count self;
     packages_error_count := packages_error_count self;
     packages_individual_errors := packages_individual_errors self;
     packages_error_message := packages_error_message self;
     packages_exception := packages_exception self;
     packages_traceback := packages_traceback self;
     metadata_state := metadata_state self;
     metadata_execution_time := metadata_execution_time self;
     metadata_error_message := metadata_error_message self;
     metadata_exception := metadata_exception self;
     metadata_traceback := metadata_traceback self;
     publish_http := http;
     publish_https := https |}.

(** *** The methods of [PublishProgressReport] that change or send it *)

Definition TypeError : PyExc :=
  {| exc_is_Exception := true; exc_name := "TypeError"; exc_traceback := "" |}.
Definition KeyError : PyExc :=
  {| exc_is_Exception := true; exc_name := "KeyError"; exc_traceback := "" |}.
Definition AttributeError : PyExc :=
  {| exc_is_Exception := true; exc_name := "AttributeError"; exc_traceback := "" |}.

Definition set_packages_error_count (v : option Z) (self : PublishProgressReport)
  : PublishProgressReport :=
  {| conduit := conduit self;
     packages_state := packages_state self;
     packages_execution_time := packages_execution_time self;
     packages_total_count := packages_total_count self;
     packages_finished_count := packages_finished_count self;
     packages_error_count := v;
     packages_individual_errors := packages_individual_errors self;
     packages_error_message := packages_error_message self;
     packages_exception := packages_exception self;
     packages_traceback := packages_traceback self;
     metadata_state := metadata_state self;
     metadata_execution_time := metadata_execution_time self;
     metadata_error_message := metadata_error_message self;
     metadata_exception := metadata_exception self;
     metadata_traceback := metadata_traceback self;
     publish_http := publish_http self;
     publish_https := publish_https self |}.

Definition set_packages_individual_errors (v : option (gmap string (option string)))
    (self : PublishProgressReport) : PublishProgressReport :=
  {| conduit := conduit self;
     packages_state := packages_state self;
     packages_execution_time := packages_execution_time self;
     packages_total_count := packages_total_count self;
     packages_finished_count := packages_finished_count self;
     packages_error_count := packages_error_count self;
     packages_individual_errors := v;
     packages_error_message := packages_error_message self;
     packages_exception := packages_exception self;
     packages_traceback := packages_traceback self;
     metadata_state := metadata_state self;
     metadata_execution_time := metadata_execution_time self;
     metadata_error_message := metadata_error_message self;
     metadata_exception := metadata_exception self;
     metadata_traceback := metadata_traceback self;
     publish_http := publish_http self;
     publish_https := publish_https self |}.

(** ['%s-%s-%s' % (name, version, author)] *)
Definition error_key_of (name version author : string) : string :=
  name +:+ "-" +:+ version +:+ "-" +:+ author.

Section Methods.
Variable format_exception : ErrorInfo -> option string.
Variable format_traceback : ErrorInfo -> option string.

(** [add_failed_package(self, unit, traceback)]; of the unit only its
    [unit_key] dict is read. The result is the exception raised, if any,
    and the report as the statements executed so far left it. *)
Definition add_failed_package (self : PublishProgressReport)
    (unit_key : gmap string string) (traceback : ErrorInfo)
  : option PyExc * PublishProgressReport :=
  (* self.packages_error_count += 1 *)
  match packages_error_count self with
  | None => (Some TypeError, self)
  | Some n =>
      let self := set_packages_error_count (Some (n + 1)) self in
      (* self.packages_individual_errors = self.packages_individual_errors or {} *)
      let errors := default ∅ (packages_individual_errors self) in
      let self := set_packages_individual_errors (Some errors) self in
      (* error_key = '%s-%s-%s' % (unit.unit_key['name'], ...) *)
      match unit_key !! "name" with
      | None => (Some KeyError, self)
      | Some name =>
          match unit_key !! "version" with
          | None => (Some KeyError, self)
          | Some version =>
              match unit_key !! "author" with
              | None => (Some KeyError, self)
              | Some author =>
                  let error_key := error_key_of name version author in
                  (None,
                   set_packages_individual_errors
                     (Some (<[error_key := format_traceback traceback]> errors)) self)
              end
          end
      end
  end.

(** [update_progress(self)]: the snapshot is built, then handed to the
    conduit; the result is the conduit called and what it was given, or the
    [AttributeError] of calling [set_progress] on [None]. *)
Definition update_progress (self : PublishProgressReport)
  : PyExc + positive * ProgressDict :=
  let report := build_progress_report format_exception format_traceback self in
  match conduit self with
  | None => inl AttributeError
  | Some c => inr (c, report)
  end.
End Methods.

End publish_progress.

(** ** sync.py *)

Module sync.
Import constants.

(** *** Data handled by a run *)

(** A resource [dict]: where it comes from, where the downloader put it
    (['path']) and where the store wants it (['storage_path']). *)
Record Resource := {
  res_url : string;
  res_path : string;
  res_storage_path : string
}.

(** A unit key [dict]: entries ['package'], ['version'], ['maintainer']. *)
Record UnitKey := {
  uk_package : string;
  uk_version : string;
  uk_maintainer : string
}.

(** [unit_key_str], the local function of [_do_import_packages]:
    [u'%(package)s-%(version)s-%(maintainer)s' % unit_key_dict]. *)
Definition unit_key_str (unit_key_dict : UnitKey) : string :=
  uk_package unit_key_dict +:+ "-" +:+ uk_version unit_key_dict
    +:+ "-" +:+ uk_maintainer unit_key_dict.

(** A unit of the Pulp store, as [init_unit] builds it and [get_units]
    returns it. *)
Record Unit := {
  unit_type_id : string;
  unit_key : UnitKey;
  unit_metadata : string;
  storage_path : string
}.

#[export] Instance Resource_eq_dec : EqDecision Resource.
Proof. solve_decision. Defined.
#[export] Instance UnitKey_eq_dec : EqDecision UnitKey.
Proof. solve_decision. Defined.
#[export] Instance Unit_eq_dec : EqDecision Unit.
Proof. solve_decision. Defined.

(** Modelled from the spec: [pulp_deb.common.model.Package] is not part of
    the sources at hand. A package carries its descriptive fields, of which
    (package, version, maintainer) form the identity; it knows its type
    (binary or ['source']) and the resources it needs. *)
Record Package := {
  pkg_unit_key : UnitKey;
  package_type : string;
  pkg_unit_metadata : string;
  pkg_resources : list Resource
}.

(** Modelled from the spec: [Package.key], the identity key, a composite
    of (package, version, maintainer) laid out as [constants.DEB_KEY],
    ['%(package)s-%(version)s-%(maintainer)s']. *)
Definition key (p : Package) : string := unit_key_str (pkg_unit_key p).

(** Modelled from the spec: [Package.from_unit], the package of an
    inventory item, carrying the same identity fields. *)
Definition from_unit (u : Unit) : Package :=
  {| pkg_unit_key := unit_key u;
     package_type := "";
     pkg_unit_metadata := unit_metadata u;
     pkg_resources := [] |}.

(** *** The progress report of a sync run *)

(** Modelled from the spec: [pulp_deb.common.sync_progress.SyncProgressReport]
    is not part of the sources at hand. Its attributes are those of
    section 4.3: the index phase ([state], [execution_time],
    [error_message], [exception], [traceback]), the package-import phase
    (the [packages_*] attributes, as in [PublishProgressReport]) and the
    two publish states. [resource_state] is the attribute that
    [_update_dist] assigns when it starts; [None] until then. *)
Record SyncProgressReport := mkReport {
  resource_state : option string;

  state : string;
  execution_time : option Z;
  error_message : option string;
  exception : ErrorInfo;
  traceback : ErrorInfo;

  packages_state : string;
  packages_execution_time : option Z;
  packages_total_count : option Z;
  packages_finished_count : option Z;
  packages_error_count : option Z;
  packages_individual_errors : option (gmap string string);
  packages_error_message : option string;
  packages_exception : ErrorInfo;
  packages_traceback : ErrorInfo;

  publish_http : string;
  publish_https : string
}.

(** Modelled from the spec: [SyncProgressReport.__init__]; every phase
    starts in [not-started] with nothing recorded. *)
Definition SyncProgressReport_init : SyncProgressReport :=
  mkReport None
    STATE_NOT_STARTED None None NoError NoError
    STATE_NOT_STARTED None None None None None None NoError NoError
    STATE_NOT_STARTED STATE_NOT_STARTED.

(** Attribute assignments [self.progress_report.<attribute> = v]. *)
Definition set_resource_state v (r : SyncProgressReport) :=
  mkReport v (state r) (execution_time r) (error_message r) (exception r) (traceback r)
    (packages_state r) (packages_execution_time r) (packages_total_count r)
    (packages_finished_count r) (packages_error_count r) (packages_individual_errors r)
    (packages_error_message r) (packages_exception r) (packages_traceback r)
    (publish_http r) (publish_https r).
Definition set_state v (r : SyncProgressReport) :=
  mkReport (resource_state r) v (execution_time r) (error_message r) (exception r) (traceback r)
    (packages_state r) (packages_execution_time r) (packages_total_count r)
    (packages_finished_count r) (packages_error_count r) (packages_individual_errors r)
    (packages_error_message r) (packages_exception r) (packages_traceback r)
    (publish_http r) (publish_https r).
Definition set_execution_time v (r : SyncProgressReport) :=
  mkReport (resource_state r) (state r) v (error_message r) (exception r) (traceback r)
    (packages_state r) (packages_execution_time r) (packages_total_count r)
    (packages_finished_count r) (packages_error_count r) (packages_individual_errors r)
    (packages_error_message r) (packages_exception r) (packages_traceback r)
    (publish_http r) (publish_https r).
Definition set_error_message v (r : SyncProgressReport) :=
  mkReport (resource_state r) (state r) (execution_time r) v (exception r) (traceback r)
    (packages_state r) (packages_execution_time r) (packages_total_count r)
    (packages_finished_count r) (packages_error_count r) (packages_individual_errors r)
    (packages_error_message r) (packages_exception r) (packages_traceback r)
    (publish_http r) (publish_https r).
Definition set_exception v (r : SyncProgressReport) :=
  mkReport (resource_state r) (state r) (execution_time r) (error_message r) v (traceback r)
    (packages_state r) (packages_execution_time r) (packages_total_count r)
    (packages_finished_count r) (packages_error_count r) (packages_individual_errors r)
    (packages_error_message r) (packages_exception r) (packages_traceback r)
    (publish_http r) (publish_https r).
Definition set_traceback v (r : SyncProgressReport) :=
  mkReport (resource_state r) (state r) (execution_time r) (error_message r) (exception r) v
    (packages_state r) (packages_execution_time r) (packages_total_count r)
    (packages_finished_count r) (packages_error_count r) (packages_individual_errors r)
    (packages_error_message r) (packages_exception r) (packages_traceback r)
    (publish_http r) (publish_https r).
Definition set_packages_state v (r : SyncProgressReport) :=
  mkReport (resource_state r) (state r) (execution_time r) (error_message r) (exception r) (traceback r)
    v (packages_execution_time r) (packages_total_count r)
    (packages_finished_count r) (packages_error_count r) (packages_individual_errors r)
    (packages_error_message r) (packages_exception r) (packages_traceback r)
    (publish_http r) (publish_https r).
Definition set_packages_execution_time v (r : SyncProgressReport) :=
  mkReport (resource_state r) (state r) (execution_time r) (error_message r) (exception r) (traceback r)
    (packages_state r) v (packages_total_count r)
    (packages_finished_count r) (packages_error_count r) (packages_individual_errors r)
    (packages_error_message r) (packages_exception r) (packages_traceback r)
    (publish_http r) (publish_https r).
Definition set_packages_total_count v (r : SyncProgressReport) :=
  mkReport (resource_state r) (state r) (execution_time r) (error_message r) (exception r) (traceback r)
    (packages_state r) (packages_execution_time r) v
    (packages_finished_count r) (packages_error_count r) (packages_individual_errors r)
    (packages_error_message r) (packages_exception r) (packages_traceback r)
    (publish_http r) (publish_https r).
Definition set_packages_finished_count v (r : SyncProgressReport) :=
  mkReport (resource_state r) (state r) (execution_time r) (error_message r) (exception r) (traceback r)
    (packages_state r) (packages_execution_time r) (packages_total_count r)
    v (packages_error_count r) (packages_individual_errors r)
    (packages_error_message r) (packages_exception r) (packages_traceback r)
    (publish_http r) (publish_https r).
Definition set_packages_error_count v (r : SyncProgressReport) :=
  mkReport (resource_state r) (state r) (execution_time r) (error_message r) (exception r) (traceback r)
    (packages_state r) (packages_execution_time r) (packages_total_count r)
    (packages_finished_count r) v (packages_individual_errors r)
    (packages_error_message r) (packages_exception r) (packages_traceback r)
    (publish_http r) (publish_https r).
Definition set_packages_individual_errors v (r : SyncProgressReport) :=
  mkReport (resource_state r) (state r) (execution_time r) (error_message r) (exception r) (traceback r)
    (packages_state r) (packages_execution_time r) (packages_total_count r)
    (packages_finished_count r) (packages_error_count r) v
    (packages_error_message r) (packages_exception r) (packages_traceback r)
    (publish_http r) (publish_https r).
Definition set_packages_error_message v (r : SyncProgressReport) :=
  mkReport (resource_state r) (state r) (execution_time r) (error_message r) (exception r) (traceback r)
    (packages_state r) (packages_execution_time r) (packages_total_count r)
    (packages_finished_count r) (packages_error_count r) (packages_individual_errors r)
    v (packages_exception r) (packages_traceback r)
    (publish_http r) (publish_https r).
Definition set_packages_exception v (r : SyncProgressReport) :=
  mkReport (resource_state r) (state r) (execution_time r) (error_message r) (exception r) (traceback r)
    (packages_state r) (packages_execution_time r) (packages_total_count r)
    (packages_finished_count r) (packages_error_count r) (packages_individual_errors r)
    (packages_error_message r) v (packages_traceback r)
    (publish_http r) (publish_https r).
Definition set_packages_traceback v (r : SyncProgressReport) :=
  mkReport (resource_state r) (state r) (execution_time r) (error_message r) (exception r) (traceback r)
    (packages_state r) (packages_execution_time r) (packages_total_count r)
    (packages_finished_count r) (packages_error_count r) (packages_individual_errors r)
    (packages_error_message r) (packages_exception r) v
    (publish_http r) (publish_https r).

(** Modelled from the spec: [SyncProgressReport.build_final_report];
    success iff the index phase and the package-import phase both ended in
    [success]; the summary carries the combined elapsed time of the two
    phases ([-1] while one of them has none), as in
    [PublishProgressReport.build_final_report]. *)
Definition build_final_report (self : SyncProgressReport) : FinalReport :=
  let total_execution_time :=
    match execution_time self, packages_execution_time self with
    | Some it, Some pt => it + pt
    | _, _ => -1
    end in
  let all_step_states := [state self; packages_state self] in
  let unsuccessful_steps := filter (λ s, s ≠ STATE_SUCCESS) all_step_states in
  if (length unsuccessful_steps =? 0)%nat
  then build_success_report total_execution_time ∅
  else build_failure_report total_execution_time ∅.

(** *** Collaborators *)

(** A call that leaves the engine. [SetProgress] carries the snapshot
    handed to [conduit.set_progress]: the values of all the report's
    attributes at that moment. *)
Inductive Call :=
| CreateDownloader
| DownloadResources (resources : list Resource)
| UpdateFromResources (resources : list Resource)
| GetUnits (type_ids : list string)
| InitUnit (type_id : string) (uk : UnitKey) (metadata : string) (path : string)
| PathExists (path : string)
| MakeDirs (path : string)
| CopyFile (src dst : string)
| SaveUnit (u : Unit)
| LinkUnit (parent child : Unit)
| RemoveUnit (u : Unit)
| SetProgress (snapshot : SyncProgressReport).

(** Everything a run gets from outside.
    - [config]: the plugin configuration, each configured key with the
      value [get_boolean] reads for it ([None] when it is no boolean);
    - [dist_indexes]: [self.dist.get_indexes()];
    - [parsed_packages]: the package list [update_from_resources] leaves in
      the distribution;
    - [existing_units]: what [sync_conduit.get_units] returns;
    - [faults]: whether a call raises, given the calls made before it
      (pushing a snapshot to the progress sink is never refused);
    - [fs_exists]: what [os.path.exists] answers for a path after the given
      calls;
    - [clock]: the reading of [datetime.now()] after the given calls, in
      microseconds (the resolution of a [datetime]) from a fixed origin;
    - [format_failure]: the text under which a package's failure is
      recorded. *)
Record Env := {
  config : gmap string (option bool);
  dist_indexes : list Resource;
  parsed_packages : list Resource -> list Package;
  existing_units : list Unit;
  faults : list Call -> Call -> option PyExc;
  fs_exists : list Call -> string -> bool;
  clock : list Call -> Z;
  format_failure : PyExc -> string -> string
}.

(** The mutable state of a [PackageSyncRun]: its report, the package list
    of its distribution, and the calls made so far. *)
Record RunState := mkRun {
  progress_report : SyncProgressReport;
  dist_packages : list Package;
  calls : list Call
}.

(** *** Statements that may raise *)

Inductive Outcome (A : Type) :=
| Normal (a : A)
| Raised (e : PyExc).
Arguments Normal {A} a.
Arguments Raised {A} e.

Definition M (A : Type) : Type := RunState -> Outcome A * RunState.

#[export] Instance M_ret : MRet M := λ A a s, (Normal a, s).

#[export] Instance M_bind : MBind M := λ A B k m s,
  match m s with
  | (Normal a, s') => k a s'
  | (Raised e, s') => (Raised e, s')
  end.

Definition raise {A} (e : PyExc) : M A := λ s, (Raised e, s).

(** [try: body / except Exception, e: handler e]. What the body did before
    raising stays done. *)
Definition try_except {A} (body : M A) (handler : PyExc -> M A) : M A :=
  λ s, match body s with
       | (Normal a, s') => (Normal a, s')
       | (Raised e, s') =>
           if exc_is_Exception e then handler e s' else (Raised e, s')
       end.

(** [try: body / finally: ...; return final]: the [return] of the
    [finally] clause replaces whatever the body returned or raised. *)
Definition try_finally_return {A B} (body : M A) (final : M B) : M B :=
  λ s, final (snd (body s)).

Definition get_report : M SyncProgressReport :=
  λ s, (Normal (progress_report s), s).

Definition set_attr (f : SyncProgressReport -> SyncProgressReport) : M unit :=
  λ s, (Normal tt, mkRun (f (progress_report s)) (dist_packages s) (calls s)).

Definition get_packages : M (list Package) :=
  λ s, (Normal (dist_packages s), s).

Definition set_packages (ps : list Package) : M unit :=
  λ s, (Normal tt, mkRun (progress_report s) ps (calls s)).

Definition record_call (c : Call) (s : RunState) : RunState :=
  mkRun (progress_report s) (dist_packages s) (calls s ++ [c]).

Definition get_calls : M (list Call) := λ s, (Normal (calls s), s).

(** A call to a collaborator: it is made, and it returns or raises. *)
Definition call (env : Env) (c : Call) : M unit :=
  λ s, match faults env (calls s) c with
       | Some e => (Raised e, record_call c s)
       | None => (Normal tt, record_call c s)
       end.

(** [datetime.now()] *)
Definition now (env : Env) : M Z := λ s, (Normal (clock env (calls s)), s).

(** [duration.seconds], for [duration] the difference of two readings of
    the clock. A [timedelta] keeps days, seconds and microseconds apart,
    with [0 <= seconds < 86400] and [0 <= microseconds < 1000000]; its
    [seconds] attribute leaves the days and the microseconds out. *)
Definition timedelta_seconds (duration : Z) : Z :=
  (duration / 1000000) mod 86400.
Arguments timedelta_seconds : simpl never.

Definition TypeError : PyExc :=
  {| exc_is_Exception := true; exc_name := "TypeError"; exc_traceback := "" |}.
Definition KeyError : PyExc :=
  {| exc_is_Exception := true; exc_name := "KeyError"; exc_traceback := "" |}.

(** [d[k]] *)
Definition getitem {V} (d : gmap string V) (k : string) : M V :=
  match d !! k with
  | Some v => mret v
  | None => raise KeyError
  end.

(** [n += 1] on an attribute that may still be [None]. *)
Definition plus_one (n : option Z) : M (option Z) :=
  match n with
  | Some z => mret (Some (z + 1))
  | None => raise TypeError
  end.

(** Modelled from the spec: [SyncProgressReport.update_progress]; pushes
    the current snapshot to the progress sink. *)
Definition update_progress : M unit :=
  λ s, (Normal tt, record_call (SetProgress (progress_report s)) s).

(** Modelled from the spec: [SyncProgressReport.add_failed_package]
    [(package, error, trace)]; increments the error count and records the
    failure, as text, under the package's identity key. Laid out as
    [PublishProgressReport.add_failed_package]. *)
Definition add_failed_package (env : Env) (package : Package) (e : PyExc) (tb : string)
  : M unit :=
  r ← get_report;
  n ← plus_one (packages_error_count r);
  set_attr (set_packages_error_count n);;
  r ← get_report;
  let errors := default ∅ (packages_individual_errors r) in
  set_attr (set_packages_individual_errors
              (Some (<[key package := format_failure env e tb]> errors))).

(** *** PackageSyncRun *)

(** Modelled from the spec: [model.Distribution] owns a package list only
    once metadata has been fetched and parsed, so a run starts with an
    empty one; and [__init__] gives the run a fresh report. *)
Definition PackageSyncRun_init : RunState :=
  mkRun SyncProgressReport_init [] [].

(** [_create_downloader] *)
Definition _create_downloader (env : Env) : M unit :=
  call env CreateDownloader.

(** [downloader.download_resources(resources, self.progress_report)]; the
    resources come back with their local path filled in. *)
Definition download_resources (env : Env) (resources : list Resource)
  : M (list Resource) :=
  call env (DownloadResources resources);;
  mret resources.

(** [self.dist.update_from_resources(resources)] *)
Definition update_from_resources (env : Env) (resources : list Resource) : M unit :=
  call env (UpdateFromResources resources);;
  set_packages (parsed_packages env resources).

(** [self.sync_conduit.init_unit(type_id, unit_key, metadata, path)]; the
    store derives the unit's storage path from the relative path it is
    given, and the unit is shown here with that relative path. *)
Definition init_unit (env : Env) (type_id : string) (uk : UnitKey)
    (metadata : string) (path : string) : M Unit :=
  call env (InitUnit type_id uk metadata path);;
  mret {| unit_type_id := type_id; unit_key := uk;
          unit_metadata := metadata; storage_path := path |}.

Definition save_unit (env : Env) (u : Unit) : M unit := call env (SaveUnit u).
Definition link_unit (env : Env) (parent child : Unit) : M unit :=
  call env (LinkUnit parent child).
Definition remove_unit (env : Env) (u : Unit) : M unit := call env (RemoveUnit u).

(** [sync_conduit.get_units(criteria=package_criteria)] *)
Definition get_units (env : Env) (type_ids : list string) : M (list Unit) :=
  call env (GetUnits type_ids);;
  mret (existing_units env).

(** [_update_dist]. [true] stands for falling off the end of the function,
    [false] for one of the two [return None] of the handlers; the caller
    ignores the value either way. *)
Definition _update_dist (env : Env) : M bool :=
  set_attr (set_resource_state (Some STATE_RUNNING));;
  update_progress;;
  start_time ← now env;
  (* Retrieve the metadata from the source *)
  fetched ← try_except
    (_create_downloader env;;
     resources ← download_resources env (dist_indexes env);
     mret (Some resources))
    (λ e,
       set_attr (set_state STATE_FAILED);;
       set_attr (set_error_message (Some "Error downloading resources"));;
       set_attr (set_exception (ExceptionObject e));;
       set_attr (set_traceback (TracebackObject (exc_traceback e)));;
       end_time ← now env;
       let duration := end_time - start_time in
       set_attr (set_execution_time (Some (timedelta_seconds duration)));;
       update_progress;;
       mret None);
  match fetched with
  | None => mret false
  | Some resources =>
      (* Parse the retrieved resources documents *)
      parsed ← try_except
        (update_from_resources env resources;;
         mret true)
        (λ e,
           set_attr (set_state STATE_FAILED);;
           set_attr (set_error_message
                       (Some "Error parsing repository packages resources document"));;
           set_attr (set_exception (ExceptionObject e));;
           set_attr (set_traceback (TracebackObject (exc_traceback e)));;
           end_time ← now env;
           let duration := end_time - start_time in
           set_attr (set_execution_time (Some (timedelta_seconds duration)));;
           update_progress;;
           mret false);
      if parsed : bool then
        (* Last update to the progress report before returning *)
        set_attr (set_state STATE_SUCCESS);;
        end_time ← now env;
        let duration := end_time - start_time in
        set_attr (set_execution_time (Some (timedelta_seconds duration)));;
        update_progress;;
        mret true
      else mret false
  end.

(** [s.rstrip('/')], on the characters of [s] taken from the last to the
    first. *)
Fixpoint rstrip_slashes (reversed : list ascii) : list ascii :=
  match reversed with
  | c :: rest => if Ascii.eqb c "/"%char then rstrip_slashes rest else reversed
  | [] => []
  end.

(** [p[:p.rfind('/') + 1]], on the characters of [p] taken from the last to
    the first: what precedes the last slash, and that slash. *)
Fixpoint up_to_last_slash (reversed : list ascii) : list ascii :=
  match reversed with
  | c :: rest => if Ascii.eqb c "/"%char then reversed else up_to_last_slash rest
  | [] => []
  end.

(** [os.path.dirname(p)], as [posixpath] has it:
    [head = p[:p.rfind('/') + 1]], and
    [if head and head != '/'*len(head): head = head.rstrip('/')]. *)
Definition os_path_dirname (p : string) : string :=
  let head := up_to_last_slash (rev (String.list_ascii_of_string p)) in
  if forallb (λ c, Ascii.eqb c "/"%char) head
  then String.string_of_list_ascii (rev head)
  else String.string_of_list_ascii (rev (rstrip_slashes head)).

(** [os.path.exists(path)]: the file system is asked, and answers. *)
Definition os_path_exists (env : Env) (path : string) : M bool :=
  call env (PathExists path);;
  history ← get_calls;
  mret (fs_exists env history path).

(** [os.makedirs(path)] *)
Definition os_makedirs (env : Env) (path : string) : M unit :=
  call env (MakeDirs path).

(** [shutil.copy(src, dst)] *)
Definition shutil_copy (env : Env) (src dst : string) : M unit :=
  call env (CopyFile src dst).

(** [_content_unit]: the store allocates the unit, the directory of its
    storage path is made unless it is there, then the downloaded file is
    copied to its place. The clause [except IOError] logs and raises the
    exception again, so it changes nothing in what the caller sees. *)
Definition _content_unit (env : Env) (resource : Resource) (type_id : string)
    (uk : UnitKey) (metadata : string) : M Unit :=
  unit ← init_unit env type_id uk metadata (res_storage_path resource);
  let storage_dir := os_path_dirname (storage_path unit) in
  there ← os_path_exists env storage_dir;
  (if negb there then os_makedirs env storage_dir else mret tt);;
  (* Copy them to the final location *)
  shutil_copy env (res_path resource) (storage_path unit);;
  mret unit.

(** The loop of [_content_units_from_package]. *)
Fixpoint content_units (env : Env) (package : Package) (resources : list Resource)
  : M (list Unit) :=
  match resources with
  | [] => mret []
  | resource :: rest =>
      unit ← _content_unit env resource TYPE_DEB
               (pkg_unit_key package) (pkg_unit_metadata package);
      units ← content_units env package rest;
      mret (unit :: units)
  end.

Definition _content_units_from_package (env : Env) (package : Package)
  : M (list Unit) :=
  let pkg_resources := pkg_resources package in
  download_resources env pkg_resources;;
  content_units env package pkg_resources.

(** The last loop of [_add_new_package]. *)
Fixpoint save_units (env : Env) (parent : option Unit) (units : list Unit) : M unit :=
  match units with
  | [] => mret tt
  | unit :: rest =>
      save_unit env unit;;
      match parent with
      | Some p => link_unit env p unit
      | None => mret tt
      end;;
      save_units env parent rest
  end.

(** [_add_new_package] *)
Definition _add_new_package (env : Env) (package : Package) : M unit :=
  units ← _content_units_from_package env package;
  parent ← (if bool_decide (package_type package = "source")
            then p ← init_unit env TYPE_DEB (pkg_unit_key package)
                       (pkg_unit_metadata package) "";
                 mret (Some p)
            else mret None);
  match parent with
  | Some p => save_unit env p
  | None => mret tt
  end;;
  save_units env parent units.

(** [_resolve_new_units] *)
Definition _resolve_new_units (existing_unit_keys found_unit_keys : list string)
  : list string :=
  elements ((list_to_set found_unit_keys : gset string)
              ∖ list_to_set existing_unit_keys).

(** [_resolve_remove_units] *)
Definition _resolve_remove_units (existing_unit_keys found_unit_keys : list string)
  : list string :=
  elements ((list_to_set existing_unit_keys : gset string)
              ∖ list_to_set found_unit_keys).

(** [_should_remove_missing]; the result is used as a condition, where
    [None] counts as false. *)
Definition _should_remove_missing (env : Env) : option bool :=
  match config env !! CONFIG_REMOVE_MISSING with
  | None => Some DEFAULT_REMOVE_MISSING
  | Some v => v
  end.

Definition truthy (v : option bool) : bool := default false v.

(** [dict([(p.key, p) for p in packages])]: a later entry replaces an
    earlier one with the same key. *)
Definition dict_by_key {V} (k : V -> string) (l : list V) : gmap string V :=
  foldl (λ d x, <[k x := x]> d) ∅ l.

(** [d.keys()] *)
Definition keys {V} (d : gmap string V) : list string := (map_to_list d).*1.

(** The loop [for key in new_unit_keys] of [_do_import_packages]. *)
Fixpoint import_new_units (env : Env) (packages_by_key : gmap string Package)
    (new_unit_keys : list string) : M unit :=
  match new_unit_keys with
  | [] => mret tt
  | key :: rest =>
      package ← getitem packages_by_key key;
      try_except
        (_add_new_package env package;;
         r ← get_report;
         n ← plus_one (packages_finished_count r);
         set_attr (set_packages_finished_count n))
        (λ e, add_failed_package env package e (exc_traceback e));;
      update_progress;;
      import_new_units env packages_by_key rest
  end.

(** The loop [for key in remove_unit_keys] of [_do_import_packages]. *)
Fixpoint remove_missing_units (env : Env) (existing_units_by_key : gmap string Unit)
    (remove_unit_keys : list string) : M unit :=
  match remove_unit_keys with
  | [] => mret tt
  | key :: rest =>
      doomed ← getitem existing_units_by_key key;
      remove_unit env doomed;;
      remove_missing_units env existing_units_by_key rest
  end.

(** [_do_import_packages] *)
Definition _do_import_packages (env : Env) : M unit :=
  _create_downloader env;;
  (* Ease lookup of packages *)
  packages ← get_packages;
  let packages_by_key := dict_by_key key packages in
  (* Collect information about the repository's packages before changing it *)
  existing_units ← get_units env [TYPE_DEB];
  let existing_packages := from_unit <$> existing_units in
  let existing_package_keys := key <$> existing_packages in
  let new_unit_keys :=
    _resolve_new_units existing_package_keys (keys packages_by_key) in
  let remove_unit_keys :=
    _resolve_remove_units existing_package_keys (keys packages_by_key) in
  (* Once we know how many things need to be processed, we can update the
     progress report *)
  set_attr (set_packages_total_count (Some (Z.of_nat (length new_unit_keys))));;
  set_attr (set_packages_finished_count (Some 0));;
  set_attr (set_packages_error_count (Some 0));;
  update_progress;;
  (* Add new units *)
  import_new_units env packages_by_key new_unit_keys;;
  (* Remove missing units if the configuration indicates to do so *)
  if truthy (_should_remove_missing env) then
    let existing_units_by_key :=
      dict_by_key (λ u, unit_key_str (unit_key u)) existing_units in
    remove_missing_units env existing_units_by_key remove_unit_keys
  else mret tt.

(** [_import_packages] *)
Definition _import_packages (env : Env) : M unit :=
  set_attr (set_packages_state STATE_RUNNING);;
  start_time ← now env;
  (* Perform the actual logic *)
  done_ ← try_except
    (_do_import_packages env;;
     mret true)
    (λ e,
       set_attr (set_packages_state STATE_FAILED);;
       set_attr (set_packages_error_message (Some "Error retrieving packages"));;
       set_attr (set_packages_exception (ExceptionObject e));;
       set_attr (set_packages_traceback (TracebackObject (exc_traceback e)));;
       end_time ← now env;
       let duration := end_time - start_time in
       set_attr (set_packages_execution_time (Some (timedelta_seconds duration)));;
       update_progress;;
       mret false);
  if done_ : bool then
    (* Last update to the progress report before returning *)
    set_attr (set_packages_state STATE_SUCCESS);;
    end_time ← now env;
    let duration := end_time - start_time in
    set_attr (set_packages_execution_time (Some (timedelta_seconds duration)));;
    update_progress
  else mret tt.

(** The [try] block of [perform_sync]: [Some report] when it reaches
    [return report], [None] when it runs to its end. *)
Definition perform_sync_try (env : Env) : M (option FinalReport) :=
  _update_dist env;;
  packages ← get_packages;
  if (length packages =? 0)%nat then
    r ← get_report;
    let report := build_final_report r in
    mret (Some report)
  else
    _import_packages env;;
    mret None.

(** The [finally] block of [perform_sync]. *)
Definition perform_sync_finally : M FinalReport :=
  (* One final progress update before finishing *)
  update_progress;;
  r ← get_report;
  let report := build_final_report r in
  mret report.

(** [perform_sync] *)
Definition perform_sync (env : Env) : M FinalReport :=
  try_finally_return (perform_sync_try env) perform_sync_finally.

End sync.

(** ** Scenarios of section 8 of the specification *)

Module scenario.
Import constants sync.

Definition resource_of (name : string) : Resource :=
  {| res_url := "http://mirror/pool/" +:+ name +:+ ".deb";
     res_path := "/tmp/" +:+ name +:+ ".deb";
     res_storage_path := "pool/" +:+ name +:+ ".deb" |}.

Definition package_of (name version maintainer : string) : Package :=
  {| pkg_unit_key := {| uk_package := name; uk_version := version;
                        uk_maintainer := maintainer |};
     package_type := "package";
     pkg_unit_metadata := "";
     pkg_resources := [resource_of name] |}.

Definition unit_of (name version maintainer : string) : Unit :=
  {| unit_type_id := TYPE_DEB;
     unit_key := {| uk_package := name; uk_version := version;
                    uk_maintainer := maintainer |};
     unit_metadata := "";
     storage_path := "pool/" +:+ name +:+ ".deb" |}.

Definition pkg_A := package_of "A" "1.0" "alice".
Definition pkg_B := package_of "B" "2.0" "bob".
Definition unit_A := unit_of "A" "1.0" "alice".
Definition unit_C := unit_of "C" "1.0" "carol".

Definition index : list Resource :=
  [ {| res_url := "http://mirror/dists/stable/main/binary-amd64/Packages.gz";
       res_path := "/tmp/Packages.gz"; res_storage_path := "" |} ].

Definition IOError : PyExc :=
  {| exc_is_Exception := true; exc_name := "IOError"; exc_traceback := "tb" |}.

Definition KeyboardInterrupt : PyExc :=
  {| exc_is_Exception := false; exc_name := "KeyboardInterrupt";
     exc_traceback := "tb" |}.

Definition no_faults : list Call -> Call -> option PyExc := λ _ _, None.

(** Fetching B's file fails. *)
Definition download_of_B_fails : list Call -> Call -> option PyExc :=
  λ _ c, match c with
         | DownloadResources rs =>
             if bool_decide (rs = pkg_resources pkg_B) then Some IOError else None
         | _ => None
         end.

(** The downloader cannot be had at all. *)
Definition fetch_fails : list Call -> Call -> option PyExc :=
  λ _ c, match c with
         | CreateDownloader => Some IOError
         | _ => None
         end.

(** The operator interrupts the run while the index is downloaded. *)
Definition interrupted : list Call -> Call -> option PyExc :=
  λ _ c, match c with
         | DownloadResources _ => Some KeyboardInterrupt
         | _ => None
         end.

(** A clock on which every call takes one second. *)
Definition seconds : list Call -> Z := λ h, 1000000 * Z.of_nat (length h).

(** A file system in which a directory is there once it has been made. *)
Definition made : list Call -> string -> bool :=
  λ h path, existsb (λ c, match c with
                          | MakeDirs d => bool_decide (d = path)
                          | _ => false
                          end) h.

Definition format : PyExc -> string -> string := λ e tb, exc_name e +:+ ": " +:+ tb.

Definition mk_env (cfg : gmap string (option bool)) (remote : list Package)
    (local : list Unit) (f : list Call -> Call -> option PyExc) : Env :=
  {| config := cfg;
     dist_indexes := index;
     parsed_packages := λ _, remote;
     existing_units := local;
     faults := f;
     fs_exists := made;
     clock := seconds;
     format_failure := format |}.

Definition keep_missing : gmap string (option bool) := ∅.
Definition drop_missing : gmap string (option bool) :=
  {[ CONFIG_REMOVE_MISSING := Some true ]}.

(** Remote {A, B}, store {A}, nothing removed. *)
Definition env_new_B : Env := mk_env keep_missing [pkg_A; pkg_B] [unit_A] no_faults.

(** Remote {A, B}, store {A, C}, missing units removed. *)
Definition env_drop_C : Env :=
  mk_env drop_missing [pkg_A; pkg_B] [unit_A; unit_C] no_faults.

(** Remote {A, B}, store {A}, fetching B's file fails. *)
Definition env_B_fails : Env :=
  mk_env keep_missing [pkg_A; pkg_B] [unit_A] download_of_B_fails.

(** The remote index lists no package. *)
Definition env_empty : Env := mk_env keep_missing [] [unit_A] no_faults.

(** The index cannot be fetched. *)
Definition env_no_index : Env :=
  mk_env keep_missing [pkg_A; pkg_B] [unit_A] fetch_fails.

(** The run is interrupted during index retrieval. *)
Definition env_interrupted : Env :=
  mk_env keep_missing [pkg_A; pkg_B] [unit_A] interrupted.

(** A report as the distributor holds it at the end of a run in which both
    steps went through. *)
Definition finished_report : publish_progress.PublishProgressReport :=
  {| publish_progress.conduit := Some 1%positive;
     publish_progress.packages_state := STATE_SUCCESS;
     publish_progress.packages_execution_time := Some 8;
     publish_progress.packages_total_count := Some 2;
     publish_progress.packages_finished_count := Some 1;
     publish_progress.packages_error_count := Some 1;
     publish_progress.packages_individual_errors := Some {[ "B-2.0-bob" := Some "IOError" ]};
     publish_progress.packages_error_message := None;
     publish_progress.packages_exception := NoError;
     publish_progress.packages_traceback := NoError;
     publish_progress.metadata_state := STATE_SUCCESS;
     publish_progress.metadata_execution_time := Some 3;
     publish_progress.metadata_error_message := None;
     publish_progress.metadata_exception := NoError;
     publish_progress.metadata_traceback := NoError;
     publish_progress.publish_http := STATE_FAILED;
     publish_progress.publish_https := STATE_SKIPPED |}.

(** A run whose distribution lists A and B, about to import them. *)
Definition ready_to_import : RunState :=
  mkRun (set_packages_error_count (Some 0)
           (set_packages_finished_count (Some 0) SyncProgressReport_init))
    [pkg_A; pkg_B] [].

(** A run whose index has been parsed: the distribution lists A and B. *)
Definition index_parsed : RunState :=
  mkRun (set_state STATE_SUCCESS SyncProgressReport_init) [pkg_A; pkg_B] [].

End scenario.

(** ** Observing a run *)

Module observe.
Import sync.

Definition is_push (c : Call) : bool :=
  match c with SetProgress _ => true | _ => false end.

Definition is_remove (c : Call) : bool :=
  match c with RemoveUnit _ => true | _ => false end.

(** The calls that write to the store. *)
Definition is_store_write (c : Call) : bool :=
  match c with
  | InitUnit _ _ _ _ | SaveUnit _ | LinkUnit _ _ | RemoveUnit _ => true
  | _ => false
  end.

(** The calls a package import is made of. *)
Definition is_import_call (c : Call) : bool :=
  match c with
  | DownloadResources _ | InitUnit _ _ _ _
  | PathExists _ | MakeDirs _ | CopyFile _ _
  | SaveUnit _ | LinkUnit _ _ => true
  | _ => false
  end.

Definition import_call (c : Call) : Prop := is_import_call c = true.

Definition pushes (l : list Call) : nat := length (filter (λ c, is_push c = true) l).

(** [m] does nothing but call collaborators, each call satisfying [P];
    when it raises, the exception is one a collaborator raised. *)
Definition collaborates (env : Env) (P : Call -> Prop) {A} (m : M A) : Prop :=
  forall s, exists l,
    snd (m s) = mkRun (progress_report s) (dist_packages s) (calls s ++ l)
    /\ Forall P l
    /\ (forall e, fst (m s) = Raised e -> exists h c, faults env h c = Some e).

(** Every exception the environment can raise derives from [Exception]. *)
Definition only_Exceptions (env : Env) : Prop :=
  forall h c e, faults env h c = Some e -> exc_is_Exception e = true.

(** The state in which [_update_dist] asks for the index. *)
Definition index_requested (s : RunState) : RunState :=
  let r := set_resource_state (Some constants.STATE_RUNNING) (progress_report s) in
  record_call (SetProgress r) (mkRun r (dist_packages s) (calls s)).

(** The state in which [_import_packages] enters [_do_import_packages]. *)
Definition import_started (s : RunState) : RunState :=
  mkRun (set_packages_state constants.STATE_RUNNING (progress_report s))
    (dist_packages s) (calls s).

(** The report after a package was imported, and after its import failed. *)
Definition report_imported (r : SyncProgressReport) : SyncProgressReport :=
  set_packages_finished_count ((λ n, n + 1) <$> packages_finished_count r) r.

Definition report_failed (env : Env) (package : Package) (e : PyExc)
    (r : SyncProgressReport) : SyncProgressReport :=
  set_packages_individual_errors
    (Some (<[key package := format_failure env e (exc_traceback e)]>
             (default ∅ (packages_individual_errors r))))
    (set_packages_error_count ((λ n, n + 1) <$> packages_error_count r) r).

(** Pushing the report [r] after the calls of [s]. *)
Definition pushed (r : SyncProgressReport) (s : RunState) : RunState :=
  record_call (SetProgress r) (mkRun r (dist_packages s) (calls s)).

(** Both counters of the import phase hold a number. *)
Definition counting (s : RunState) : Prop :=
  is_Some (packages_finished_count (progress_report s))
  /\ is_Some (packages_error_count (progress_report s)).

(** One turn of the loop over the new units: the body of the [for]. *)
Definition import_turn (env : Env) (packages_by_key : gmap string Package)
    (key : string) : M unit :=
  package ← getitem packages_by_key key;
  try_except
    (_add_new_package env package;;
     r ← get_report;
     n ← plus_one (packages_finished_count r);
     set_attr (set_packages_finished_count n))
    (λ e, add_failed_package env package e (exc_traceback e));;
  update_progress.

(** The [try] block of [_update_dist] that retrieves the index. *)
Definition index_fetch (env : Env) : M (option (list Resource)) :=
  _create_downloader env;;
  resources ← download_resources env (dist_indexes env);
  mret (Some resources).

(** The index-phase attributes of the snapshots pushed, in order:
    each [resource_state] with its [state]. *)
Definition index_states (l : list Call) : list (option string * string) :=
  omap (λ c, match c with
             | SetProgress r => Some (resource_state r, state r)
             | _ => None
             end) l.

(** The identity keys of the store's inventory and of the remote index. *)
Definition existing_keys (env : Env) : list string :=
  (λ u, unit_key_str (unit_key u)) <$> existing_units env.

Definition remote_keys (s : RunState) : list string := key <$> dist_packages s.

(** new = remote − existing, missing = existing − remote. *)
Definition new_keys (env : Env) (s : RunState) : gset string :=
  list_to_set (remote_keys s) ∖ list_to_set (existing_keys env).

Definition missing_keys (env : Env) (s : RunState) : gset string :=
  list_to_set (existing_keys env) ∖ list_to_set (remote_keys s).

(** A sync report read in the shape of [PublishProgressReport], the index
    phase in the place of the metadata step. *)
Definition as_publish_report (c : positive) (r : SyncProgressReport)
  : publish_progress.PublishProgressReport :=
  {| publish_progress.conduit := Some c;
     publish_progress.packages_state := packages_state r;
     publish_progress.packages_execution_time := packages_execution_time r;
     publish_progress.packages_total_count := packages_total_count r;
     publish_progress.packages_finished_count := packages_finished_count r;
     publish_progress.packages_error_count := packages_error_count r;
     publish_progress.packages_individual_errors :=
       (λ d : gmap string string, Some <$> d) <$> packages_individual_errors r;
     publish_progress.packages_error_message := packages_error_message r;
     publish_progress.packages_exception := packages_exception r;
     publish_progress.packages_traceback := packages_traceback r;
     publish_progress.metadata_state := state r;
     publish_progress.metadata_execution_time := execution_time r;
     publish_progress.metadata_error_message := error_message r;
     publish_progress.metadata_exception := exception r;
     publish_progress.metadata_traceback := traceback r;
     publish_progress.publish_http := publish_http r;
     publish_progress.publish_https := publish_https r |}.

End observe.

(** ** More scenarios *)

Module scenario_more.
Import constants publish_progress.

(** The unit key of B as the distributor sees it. *)
Definition unit_key_B : gmap string string :=
  {[ "name" := "B"; "version" := "2.0"; "author" := "bob" ]}.

(** A unit key without its author. *)
Definition unit_key_anonymous : gmap string string :=
  {[ "name" := "B"; "version" := "2.0" ]}.

(** A formatter that shows a traceback as it is and nothing else. *)
Definition show_traceback (e : ErrorInfo) : option string :=
  match e with
  | TracebackObject tb => Some tb
  | FormattedText t => Some t
  | _ => None
  end.

(** A report whose import step is counting. *)
Definition counting_report : PublishProgressReport :=
  set_packages_error_count (Some 0) (__init__ (Some 1%positive)).

End scenario_more.

(** ** More runs *)

Module scenario_runs.
Import constants sync scenario.

(** The index is fetched, but cannot be parsed. *)
Definition parse_fails : list Call -> Call -> option PyExc :=
  λ _ c, match c with
         | UpdateFromResources _ => Some IOError
         | _ => None
         end.

Definition env_bad_index : Env :=
  mk_env keep_missing [pkg_A; pkg_B] [unit_A] parse_fails.

(** Remote {A, B}, an empty store, fetching B's file fails. *)
Definition env_empty_store : Env :=
  mk_env keep_missing [pkg_A; pkg_B] [] download_of_B_fails.

(** Remote {A}, store {A}, missing units to be removed. *)
Definition env_in_sync : Env := mk_env drop_missing [pkg_A] [unit_A] no_faults.

Definition in_sync : RunState := mkRun SyncProgressReport_init [pkg_A] [].

(** A second unit under C's key, stored elsewhere. *)
Definition unit_C_again : Unit :=
  {| unit_type_id := TYPE_DEB; unit_key := unit_key unit_C;
     unit_metadata := ""; storage_path := "pool/C_1.0.deb" |}.

(** Remote {A, B}, store {A, C, C}, missing units to be removed. *)
Definition env_two_C : Env :=
  mk_env drop_missing [pkg_A; pkg_B] [unit_A; unit_C; unit_C_again] no_faults.


(** A run object used a second time: its distribution still lists A and
    B from the first run. *)
Definition used_before : RunState :=
  mkRun SyncProgressReport_init [pkg_A; pkg_B] [].

End scenario_runs.

(** ** Observing a run, continued *)

Module inspect.
Import constants sync observe.

(** The attributes of a report, phase by phase. *)
Definition index_phase (r : SyncProgressReport) :=
  (resource_state r, state r, execution_time r, error_message r,
   exception r, traceback r).

Definition import_phase (r : SyncProgressReport) :=
  (packages_state r, packages_execution_time r, packages_total_count r,
   packages_finished_count r, packages_error_count r,
   packages_individual_errors r, packages_error_message r,
   packages_exception r, packages_traceback r).

Definition publish_phase (r : SyncProgressReport) :=
  (publish_http r, publish_https r).

(** What the package-import phase has no business with. *)
Definition outside_import_phase (s : RunState) :=
  (index_phase (progress_report s), publish_phase (progress_report s),
   dist_packages s).

(** What the import proper ([_do_import_packages]) has no business with:
    the above, and the import phase's own state, time and error. *)
Definition outside_import_counts (s : RunState) :=
  (outside_import_phase s,
   packages_state (progress_report s),
   packages_execution_time (progress_report s),
   packages_error_message (progress_report s),
   packages_exception (progress_report s),
   packages_traceback (progress_report s)).

(** [m] leaves the observation [proj] of the run as it found it. *)
Definition keeps {T A} (proj : RunState -> T) (m : M A) : Prop :=
  forall s, proj (snd (m s)) = proj s.

(** An observation that does not look at the calls made. *)
Definition calls_blind {T} (proj : RunState -> T) : Prop :=
  forall r p c1 c2, proj (mkRun r p c1) = proj (mkRun r p c2).

(** The number of packages dealt with (finished or failed) that each
    pushed snapshot shows, in order. *)
Definition processed_counts (l : list Call) : list Z :=
  omap (λ c, match c with
             | SetProgress r =>
                 match packages_finished_count r, packages_error_count r with
                 | Some f, Some n => Some (f + n)
                 | _, _ => None
                 end
             | _ => None
             end) l.

(** The lookup tables and key lists [_do_import_packages] works with. *)
Definition packages_by_key (s : RunState) : gmap string Package :=
  dict_by_key key (dist_packages s).

Definition existing_units_by_key (env : Env) : gmap string Unit :=
  dict_by_key (λ u, unit_key_str (unit_key u)) (existing_units env).

Definition existing_package_keys (env : Env) : list string :=
  key <$> (from_unit <$> existing_units env).

Definition new_unit_keys (env : Env) (s : RunState) : list string :=
  _resolve_new_units (existing_package_keys env) (keys (packages_by_key s)).

Definition remove_unit_keys (env : Env) (s : RunState) : list string :=
  _resolve_remove_units (existing_package_keys env) (keys (packages_by_key s)).

(** The state in which [_do_import_packages] enters its first loop: the
    downloader created, the inventory read, the counts set and pushed. *)
Definition loop_entry (env : Env) (s : RunState) : RunState :=
  let r := set_packages_error_count (Some 0)
             (set_packages_finished_count (Some 0)
                (set_packages_total_count
                   (Some (Z.of_nat (length (new_unit_keys env s))))
                   (progress_report s))) in
  mkRun r (dist_packages s)
    (calls s ++ [CreateDownloader; GetUnits [TYPE_DEB]; SetProgress r]).

(** The units [_content_units_from_package] builds for a package, the
    parent unit of a source package, and the calls of a package import that
    goes through. *)
Definition unit_for (package : Package) (resource : Resource) : Unit :=
  {| unit_type_id := TYPE_DEB; unit_key := pkg_unit_key package;
     unit_metadata := pkg_unit_metadata package;
     storage_path := res_storage_path resource |}.

Definition parent_unit (package : Package) : Unit :=
  {| unit_type_id := TYPE_DEB; unit_key := pkg_unit_key package;
     unit_metadata := pkg_unit_metadata package; storage_path := "" |}.

(** The calls of [_content_unit] for one resource, after the calls [h]:
    the directory is made when the file system says it is not there. *)
Definition content_unit_calls (env : Env) (h : list Call) (package : Package)
    (resource : Resource) : list Call :=
  let storage_dir := os_path_dirname (res_storage_path resource) in
  let asked :=
    [InitUnit TYPE_DEB (pkg_unit_key package) (pkg_unit_metadata package)
       (res_storage_path resource);
     PathExists storage_dir] in
  asked
  ++ (if fs_exists env (h ++ asked) storage_dir then [] else [MakeDirs storage_dir])
  ++ [CopyFile (res_path resource) (res_storage_path resource)].

Fixpoint content_calls_of (env : Env) (h : list Call) (package : Package)
    (resources : list Resource) : list Call :=
  match resources with
  | [] => []
  | resource :: rest =>
      let l := content_unit_calls env h package resource in
      l ++ content_calls_of env (h ++ l) package rest
  end.

Definition content_calls (env : Env) (h : list Call) (package : Package) : list Call :=
  let fetched := [DownloadResources (pkg_resources package)] in
  fetched ++ content_calls_of env (h ++ fetched) package (pkg_resources package).

Definition save_calls_of (parent : option Unit) (units : list Unit) : list Call :=
  units ≫= λ unit,
    SaveUnit unit :: match parent with
                     | Some p => [LinkUnit p unit]
                     | None => []
                     end.


Definition is_save_or_link (c : Call) : bool :=
  match c with SaveUnit _ | LinkUnit _ _ => true | _ => false end.

End inspect.

(** * Properties *)

(** ** The progress report ([publish_progress.py]) *)

Module ReportFacts.
Import constants publish_progress scenario.

Lemma unsuccessful_steps_empty (a b : string) :
  (length (filter (λ s, s ≠ STATE_SUCCESS) [a; b]) =? 0)%nat = true
  <-> a = STATE_SUCCESS /\ b = STATE_SUCCESS.
Proof.
  rewrite Nat.eqb_eq.
  destruct (decide (a = STATE_SUCCESS)) as [Ha|Ha];
    destruct (decide (b = STATE_SUCCESS)) as [Hb|Hb].
  - rewrite filter_cons_False by tauto.
    rewrite filter_cons_False by tauto. simpl. tauto.
  - rewrite filter_cons_False by tauto.
    rewrite filter_cons_True by tauto. simpl. split; [discriminate | tauto].
  - rewrite filter_cons_True by tauto. simpl. split; [discriminate | tauto].
  - rewrite filter_cons_True by tauto. simpl. split; [discriminate | tauto].
Qed.

(** C5: on an instance that has its conduit, [build_final_report] returns
    a report; it is a success report iff the metadata state and the
    packages state both equal [success]; whatever the two publish states
    hold, the same report comes out; and the summary carries the sum of
    the two phases' elapsed times (both being recorded; [-1] otherwise). *)
Theorem build_final_report_outcome (r : PublishProgressReport) (c : positive) :
  conduit r = Some c ->
  exists rep,
    build_final_report r = Some rep
    /\ (success_flag rep = true
        <-> metadata_state r = STATE_SUCCESS /\ packages_state r = STATE_SUCCESS)
    /\ (forall http https, build_final_report (with_publish http https r) = Some rep)
    /\ (forall mt pt,
          metadata_execution_time r = Some mt ->
          packages_execution_time r = Some pt ->
          summary_total_execution_time rep = mt + pt)
    /\ (metadata_execution_time r = None \/ packages_execution_time r = None ->
        summary_total_execution_time rep = -1).
Proof.
  intros Hc.
  pose proof (unsuccessful_steps_empty (metadata_state r) (packages_state r)) as Hs.
  unfold build_final_report, with_publish. simpl. rewrite Hc.
  destruct (length (filter _ [metadata_state r; packages_state r]) =? 0)%nat eqn:E.
  - eexists. split; [reflexivity|]. simpl.
    split; [tauto|]. split; [reflexivity|].
    split.
    + intros mt pt -> ->. reflexivity.
    + intros [->| ->]; [reflexivity|].
      destruct (metadata_execution_time r); reflexivity.
  - eexists. split; [reflexivity|]. simpl.
    split.
    { split; [discriminate|]. intros H. apply Hs in H. discriminate. }
    split; [reflexivity|].
    split.
    + intros mt pt -> ->. reflexivity.
    + intros [->| ->]; [reflexivity|].
      destruct (metadata_execution_time r); reflexivity.
Qed.

(** A finished run whose publish steps failed or were skipped: still a
    success report, with 3 + 8 seconds in the summary. *)
Lemma build_final_report_outcome_witness :
  exists rep,
    build_final_report finished_report = Some rep
    /\ success_flag rep = true
    /\ summary_total_execution_time rep = 11.
Proof.
  destruct (build_final_report_outcome finished_report 1%positive eq_refl)
    as (rep & Hrep & Hok & _ & Hsum & _).
  exists rep. split; [exact Hrep|]. split.
  - apply Hok. split; reflexivity.
  - apply (Hsum 3 8); reflexivity.
Defined.

(** C6: rebuilding a report from its own snapshot gives back every
    state-only attribute: phase states, execution times, counts, the
    individual-errors map, error messages and the two publish states. The
    conduit is gone, and the exception and traceback attributes hold the
    formatted text of the snapshot. *)
Theorem from_progress_dict_roundtrip
    (format_exception format_traceback : ErrorInfo -> option string)
    (r : PublishProgressReport) :
  let r' := from_progress_dict (build_progress_report format_exception format_traceback r) in
  (packages_state r' = packages_state r
   /\ packages_execution_time r' = packages_execution_time r
   /\ packages_total_count r' = packages_total_count r
   /\ packages_finished_count r' = packages_finished_count r
   /\ packages_error_count r' = packages_error_count r
   /\ packages_individual_errors r' = packages_individual_errors r
   /\ packages_error_message r' = packages_error_message r)
  /\ (metadata_state r' = metadata_state r
      /\ metadata_execution_time r' = metadata_execution_time r
      /\ metadata_error_message r' = metadata_error_message r)
  /\ (publish_http r' = publish_http r /\ publish_https r' = publish_https r)
  /\ conduit r' = None
  /\ (packages_exception r' = of_snapshot_text (format_exception (packages_exception r))
      /\ packages_traceback r' = of_snapshot_text (format_traceback (packages_traceback r))
      /\ metadata_exception r' = of_snapshot_text (format_exception (metadata_exception r))
      /\ metadata_traceback r' = of_snapshot_text (format_traceback (metadata_traceback r))).
Proof.
  destruct r; cbn. repeat split.
Qed.

End ReportFacts.

(** ** The synchronisation run ([sync.py]) *)

Module SyncFacts.
Import constants sync observe scenario.

(** *** Running statements *)

Lemma bind_run {A B} (m : M A) (k : A -> M B) (s : RunState) :
  (m ≫= k) s = match m s with
               | (Normal a, s') => k a s'
               | (Raised e, s') => (Raised e, s')
               end.
Proof. reflexivity. Qed.

Lemma run_eta (s : RunState) :
  mkRun (progress_report s) (dist_packages s) (calls s) = s.
Proof. destruct s; reflexivity. Qed.

Section Collaborators.
Context (env : Env) (P : Call -> Prop).

Lemma collaborates_ret {A} (a : A) : collaborates env P (mret a).
Proof.
  intros s. exists []. simpl. rewrite app_nil_r, run_eta.
  split; [reflexivity|]. split; [constructor|]. intros e H; discriminate.
Qed.

Lemma collaborates_get_calls : collaborates env P get_calls.
Proof.
  intros s. exists []. simpl. rewrite app_nil_r, run_eta.
  split; [reflexivity|]. split; [constructor|]. intros e H; discriminate.
Qed.

Lemma collaborates_call (c : Call) : P c -> collaborates env P (call env c).
Proof.
  intros Hc s. exists [c]. unfold call, record_call.
  destruct (faults env (calls s) c) as [e|] eqn:E; simpl.
  - split; [reflexivity|]. split; [repeat constructor; exact Hc|].
    intros e' [= <-]. eauto.
  - split; [reflexivity|]. split; [repeat constructor; exact Hc|].
    intros e' H; discriminate.
Qed.

Lemma collaborates_bind {A B} (m : M A) (k : A -> M B) :
  collaborates env P m -> (forall a, collaborates env P (k a)) ->
  collaborates env P (m ≫= k).
Proof.
  intros Hm Hk s. rewrite bind_run.
  destruct (Hm s) as (l1 & E1 & F1 & R1).
  destruct (m s) as [[a|e] s1]; simpl in *; subst s1.
  - destruct (Hk a (mkRun (progress_report s) (dist_packages s) (calls s ++ l1)))
      as (l2 & E2 & F2 & R2).
    exists (l1 ++ l2). rewrite E2. simpl. rewrite app_assoc.
    split; [reflexivity|]. split; [|exact R2].
    apply Forall_app; split; assumption.
  - exists l1. split; [reflexivity|]. split; [exact F1|].
    intros e' [= <-]. apply R1. reflexivity.
Qed.
End Collaborators.

Ltac collab :=
  repeat first
    [ apply collaborates_ret
    | apply collaborates_get_calls
    | apply collaborates_call; reflexivity
    | apply collaborates_bind; [|intros ?] ].

Lemma collaborates_init_unit env t uk md path :
  collaborates env import_call (init_unit env t uk md path).
Proof. unfold init_unit. collab. Qed.

Lemma collaborates_content_unit env resource t uk md :
  collaborates env import_call (_content_unit env resource t uk md).
Proof.
  unfold _content_unit, os_path_exists, os_makedirs, shutil_copy.
  apply collaborates_bind; [apply collaborates_init_unit|intros u].
  apply collaborates_bind; [collab|intros there].
  apply collaborates_bind; [destruct there; collab|intros _]. collab.
Qed.

Lemma collaborates_content_units env package resources :
  collaborates env import_call (content_units env package resources).
Proof.
  induction resources as [|r rs IH]; simpl.
  - apply collaborates_ret.
  - apply collaborates_bind; [apply collaborates_content_unit|intros u].
    apply collaborates_bind; [exact IH|intros us]. apply collaborates_ret.
Qed.

Lemma collaborates_save_units env parent units :
  collaborates env import_call (save_units env parent units).
Proof.
  induction units as [|u us IH]; simpl.
  - apply collaborates_ret.
  - unfold save_unit, link_unit.
    apply collaborates_bind; [collab|intros _].
    apply collaborates_bind; [destruct parent; collab|intros _]. exact IH.
Qed.

Lemma collaborates_add_new_package env package :
  collaborates env import_call (_add_new_package env package).
Proof.
  unfold _add_new_package, _content_units_from_package, download_resources.
  apply collaborates_bind.
  { apply collaborates_bind; [collab|intros _]. apply collaborates_content_units. }
  intros units. apply collaborates_bind.
  { destruct (bool_decide _).
    - apply collaborates_bind; [apply collaborates_init_unit|intros p].
      apply collaborates_ret.
    - apply collaborates_ret. }
  intros parent. apply collaborates_bind.
  { destruct parent; unfold save_unit; collab. }
  intros _. apply collaborates_save_units.
Qed.

(** *** Reconciliation of the two key collections *)

Lemma elem_of_resolve_new_units (existing remote : list string) (k : string) :
  k ∈ _resolve_new_units existing remote <-> k ∈ remote /\ k ∉ existing.
Proof.
  unfold _resolve_new_units.
  rewrite elem_of_elements, elem_of_difference, !elem_of_list_to_set. reflexivity.
Qed.

Lemma elem_of_resolve_remove_units (existing remote : list string) (k : string) :
  k ∈ _resolve_remove_units existing remote <-> k ∈ existing /\ k ∉ remote.
Proof.
  unfold _resolve_remove_units.
  rewrite elem_of_elements, elem_of_difference, !elem_of_list_to_set. reflexivity.
Qed.

(** C4: for any two collections of identity keys, the keys returned by
    [_resolve_new_units] are, as a set, remote − existing; those returned by
    [_resolve_remove_units] are existing − remote; and the two results have
    no key in common. *)
Theorem resolve_units_set_difference (existing remote : list string) :
  let new := _resolve_new_units existing remote in
  let missing := _resolve_remove_units existing remote in
  (list_to_set new : gset string) = list_to_set remote ∖ list_to_set existing
  /\ (list_to_set missing : gset string) = list_to_set existing ∖ list_to_set remote
  /\ (list_to_set new : gset string) ## list_to_set missing
  /\ (forall k, k ∈ new <-> k ∈ remote /\ k ∉ existing)
  /\ (forall k, k ∈ missing <-> k ∈ existing /\ k ∉ remote)
  /\ (forall k, k ∈ new -> k ∉ missing).
Proof.
  cbv zeta. split; [|split; [|split; [|split; [|split]]]].
  - unfold _resolve_new_units. apply list_to_set_elements_L.
  - unfold _resolve_remove_units. apply list_to_set_elements_L.
  - unfold _resolve_new_units, _resolve_remove_units.
    rewrite !list_to_set_elements_L. apply elem_of_disjoint. intros k.
    rewrite !elem_of_difference. tauto.
  - apply elem_of_resolve_new_units.
  - apply elem_of_resolve_remove_units.
  - intros k Hn Hm.
    apply elem_of_resolve_new_units in Hn. apply elem_of_resolve_remove_units in Hm.
    tauto.
Qed.

(** *** The loop over the new units *)

Lemma try_except_run {A} (body : M A) handler s :
  try_except body handler s =
  match body s with
  | (Normal a, s') => (Normal a, s')
  | (Raised e, s') => if exc_is_Exception e then handler e s' else (Raised e, s')
  end.
Proof. reflexivity. Qed.

(** One turn of the loop, by the outcome of the package's import. *)
Lemma import_new_units_turn env pbk key rest package s :
  pbk !! key = Some package -> counting s ->
  match _add_new_package env package s with
  | (Normal _, s_a) =>
      import_new_units env pbk (key :: rest) s
      = import_new_units env pbk rest
          (pushed (report_imported (progress_report s)) s_a)
  | (Raised e, s_a) =>
      if exc_is_Exception e then
        import_new_units env pbk (key :: rest) s
        = import_new_units env pbk rest
            (pushed (report_failed env package e (progress_report s)) s_a)
      else import_new_units env pbk (key :: rest) s = (Raised e, s_a)
  end.
Proof.
  intros Hk [[f Hf] [n Hn]].
  destruct (collaborates_add_new_package env package s) as (l & E & _ & _).
  cbn [import_new_units]. unfold getitem. rewrite Hk.
  rewrite bind_run. cbn [mret M_ret].
  rewrite bind_run, try_except_run, bind_run.
  destruct (_add_new_package env package s) as [[[]|e] s_a]; cbn [fst snd] in E; subst s_a.
  - unfold pushed, report_imported, mbind, M_bind, mret, M_ret. cbn. rewrite Hf. reflexivity.
  - destruct (exc_is_Exception e); [|reflexivity].
    unfold pushed, report_failed, add_failed_package, mbind, M_bind, mret, M_ret. cbn. rewrite Hn. reflexivity.
Qed.

Ltac exec := unfold mbind, M_bind, mret, M_ret in *.

Lemma import_new_units_cons env pbk key rest s :
  import_new_units env pbk (key :: rest) s
  = (import_turn env pbk key ≫= λ _, import_new_units env pbk rest) s.
Proof.
  cbn [import_new_units]. unfold import_turn. rewrite !bind_run.
  destruct (getitem pbk key s) as [[package|e] s1]; [|reflexivity].
  rewrite !bind_run.
  destruct (try_except _ _ s1) as [[[]|e] s2]; [|reflexivity].
  rewrite !bind_run. destruct (update_progress s2) as [[[]|e] s3]; reflexivity.
Qed.

Lemma import_new_units_app env pbk l1 l2 s :
  import_new_units env pbk (l1 ++ l2) s
  = match import_new_units env pbk l1 s with
    | (Normal _, s') => import_new_units env pbk l2 s'
    | (Raised e, s') => (Raised e, s')
    end.
Proof.
  revert s. induction l1 as [|k l1 IH]; intros s.
  - reflexivity.
  - rewrite <- app_comm_cons, !import_new_units_cons, !bind_run.
    destruct (import_turn env pbk k s) as [[[]|e] s1]; [apply IH|reflexivity].
Qed.

Lemma pushes_app l1 l2 : pushes (l1 ++ l2) = (pushes l1 + pushes l2)%nat.
Proof. unfold pushes. rewrite filter_app, length_app. reflexivity. Qed.

Lemma pushes_import_calls l : Forall import_call l -> pushes l = 0%nat.
Proof.
  induction 1 as [|c l Hc _ IH]; [reflexivity|].
  unfold pushes in *. rewrite filter_cons_False; [exact IH|].
  destruct c; try discriminate; intros _; discriminate Hc.
Qed.

Lemma no_remove_import_calls l :
  Forall import_call l -> Forall (λ c, is_remove c = false) l.
Proof.
  intros H. eapply Forall_impl; [exact H|].
  intros c Hc. destruct c; first [reflexivity|discriminate Hc].
Qed.

(** What a turn does to the calls, whatever the state of the counters. *)
Lemma import_turn_calls env pbk key s :
  exists l,
    calls (snd (import_turn env pbk key s)) = calls s ++ l
    /\ Forall (λ c, is_remove c = false) l
    /\ dist_packages (snd (import_turn env pbk key s)) = dist_packages s
    /\ (forall u, fst (import_turn env pbk key s) = Normal u -> pushes l = 1%nat).
Proof.
  unfold import_turn, getitem.
  destruct (pbk !! key) as [package|].
  2:{ exists []. cbn. rewrite app_nil_r. repeat split; [constructor|discriminate]. }
  rewrite bind_run. cbn [mret M_ret]. rewrite bind_run, try_except_run, bind_run.
  destruct (collaborates_add_new_package env package s) as (l & E & F & _).
  pose proof (no_remove_import_calls l F) as Fr.
  pose proof (pushes_import_calls l F) as Fp.
  destruct (_add_new_package env package s) as [[[]|e] s_a]; cbn [fst snd] in E; subst s_a.
  - exec. unfold get_report, plus_one. cbn.
    destruct (packages_finished_count (progress_report s)); cbn.
    + exists (l ++ [SetProgress (set_packages_finished_count (Some (z + 1)) (progress_report s))]).
      rewrite app_assoc. repeat split.
      * apply Forall_app; split; [exact Fr|repeat constructor].
      * intros _ _. rewrite pushes_app, Fp. reflexivity.
    + unfold add_failed_package, get_report, plus_one. exec. cbn.
      destruct (packages_error_count (progress_report s)); cbn.
      * eexists (l ++ [SetProgress _]).
        rewrite app_assoc. repeat split.
        -- apply Forall_app; split; [exact Fr|repeat constructor].
        -- intros _ _. rewrite pushes_app, Fp. reflexivity.
      * exists l. repeat split; [exact Fr|discriminate].
  - destruct (exc_is_Exception e).
    + unfold add_failed_package, get_report, plus_one. exec. cbn.
      destruct (packages_error_count (progress_report s)); cbn.
      * eexists (l ++ [SetProgress _]).
        rewrite app_assoc. repeat split.
        -- apply Forall_app; split; [exact Fr|repeat constructor].
        -- intros _ _. rewrite pushes_app, Fp. reflexivity.
      * exists l. repeat split; [exact Fr|discriminate].
    + exists l. cbn. repeat split; [exact Fr|discriminate].
Qed.

Lemma import_new_units_calls env pbk keys s :
  exists l,
    calls (snd (import_new_units env pbk keys s)) = calls s ++ l
    /\ Forall (λ c, is_remove c = false) l
    /\ dist_packages (snd (import_new_units env pbk keys s)) = dist_packages s
    /\ (forall u, fst (import_new_units env pbk keys s) = Normal u ->
        pushes l = length keys).
Proof.
  revert s. induction keys as [|k keys IH]; intros s.
  - exists []. cbn. rewrite app_nil_r. repeat split. constructor.
  - rewrite import_new_units_cons, bind_run.
    destruct (import_turn_calls env pbk k s) as (l1 & E1 & F1 & P1 & N1).
    destruct (import_turn env pbk k s) as [[[]|e] s1]; cbn [fst snd] in *.
    + destruct (IH s1) as (l2 & E2 & F2 & P2 & N2).
      exists (l1 ++ l2). rewrite E2, E1, P2, P1, app_assoc. repeat split.
      * apply Forall_app; split; assumption.
      * intros u Hu. rewrite pushes_app, (N1 tt eq_refl), (N2 u Hu). reflexivity.
    + exists l1. repeat split; [exact E1|exact F1|exact P1|discriminate].
Qed.

Lemma add_new_package_raises env package s e :
  only_Exceptions env ->
  fst (_add_new_package env package s) = Raised e -> exc_is_Exception e = true.
Proof.
  intros Hx He.
  destruct (collaborates_add_new_package env package s) as (l & _ & _ & R).
  destruct (R e He) as (h & c & Hf). exact (Hx h c e Hf).
Qed.

(** With every key known and both counters running, the loop goes through
    all its turns, and each turn adds one to one of the two counters. *)
Lemma import_new_units_total env pbk keys :
  only_Exceptions env ->
  Forall (λ k, is_Some (pbk !! k)) keys ->
  forall s, counting s ->
  exists s' f n f' n',
    import_new_units env pbk keys s = (Normal tt, s')
    /\ packages_finished_count (progress_report s) = Some f
    /\ packages_error_count (progress_report s) = Some n
    /\ packages_finished_count (progress_report s') = Some f'
    /\ packages_error_count (progress_report s') = Some n'
    /\ f' + n' = f + n + Z.of_nat (length keys)
    /\ f <= f' /\ n <= n'.
Proof.
  intros Hx. induction 1 as [|k keys [package Hk] _ IH]; intros s Hc.
  - destruct Hc as [[f Hf] [n Hn]]. exists s, f, n, f, n. cbn.
    repeat split; try assumption; lia.
  - pose proof (import_new_units_turn env pbk k keys package s Hk Hc) as Ht.
    pose proof (add_new_package_raises env package s) as Hr.
    destruct Hc as [[f Hf] [n Hn]].
    destruct (_add_new_package env package s) as [[[]|e] s_a]; cbn [fst] in Hr.
    + destruct (IH (pushed (report_imported (progress_report s)) s_a))
        as (s' & f1 & n1 & f' & n' & E & Hf1 & Hn1 & Hf' & Hn' & Hsum & Hle1 & Hle2).
      { split; cbn; rewrite ?Hf, ?Hn; eauto. }
      cbn in Hf1, Hn1. rewrite Hf in Hf1. rewrite Hn in Hn1.
      injection Hf1 as <-. injection Hn1 as <-.
      exists s', f, n, f', n'. rewrite Ht, E.
      repeat split; try assumption; rewrite ?Nat2Z.inj_succ; cbn [length]; lia.
    + rewrite (Hr e Hx eq_refl) in Ht.
      destruct (IH (pushed (report_failed env package e (progress_report s)) s_a))
        as (s' & f1 & n1 & f' & n' & E & Hf1 & Hn1 & Hf' & Hn' & Hsum & Hle1 & Hle2).
      { split; cbn; rewrite ?Hf, ?Hn; eauto. }
      cbn in Hf1, Hn1. rewrite Hf in Hf1. rewrite Hn in Hn1.
      injection Hf1 as <-. injection Hn1 as <-.
      exists s', f, n, f', n'. rewrite Ht, E.
      repeat split; try assumption; rewrite ?Nat2Z.inj_succ; cbn [length]; lia.
Qed.

(** C1: in the loop over the new units, with every key known to the lookup
    table, both counters running and collaborators that raise nothing but
    [Exception]s: the loop runs to its end whatever fails, pushing one
    progress update per key; and at each key, if the package's import raises,
    the failure is recorded under the package's key, the error count goes up
    by one and the finished count stays; if it succeeds the finished count
    goes up by one; either way the report is pushed next, and the loop goes
    on with the remaining keys. *)
Theorem import_failures_are_isolated env pbk keys s :
  only_Exceptions env ->
  Forall (λ k, is_Some (pbk !! k)) keys ->
  counting s ->
  (exists s' l,
     import_new_units env pbk keys s = (Normal tt, s')
     /\ calls s' = calls s ++ l /\ pushes l = length keys)
  /\ (forall done key rest package,
        keys = done ++ key :: rest ->
        pbk !! key = Some package ->
        let s_i := snd (import_new_units env pbk done s) in
        let s_j := snd (import_new_units env pbk (done ++ [key]) s) in
        let r_i := progress_report s_i in
        let r_j := progress_report s_j in
        exists f n,
          packages_finished_count r_i = Some f
          /\ packages_error_count r_i = Some n
          /\ match fst (_add_new_package env package s_i) with
             | Normal _ =>
                 packages_finished_count r_j = Some (f + 1)
                 /\ packages_error_count r_j = Some n
                 /\ packages_individual_errors r_j = packages_individual_errors r_i
             | Raised e =>
                 packages_finished_count r_j = Some f
                 /\ packages_error_count r_j = Some (n + 1)
                 /\ exists errors,
                      packages_individual_errors r_j = Some errors
                      /\ errors !! sync.key package
                         = Some (format_failure env e (exc_traceback e))
             end
          /\ calls s_j
             = calls (snd (_add_new_package env package s_i)) ++ [SetProgress r_j]
          /\ import_new_units env pbk keys s = import_new_units env pbk rest s_j).
Proof.
  intros Hx Hkeys Hc. split.
  - destruct (import_new_units_total env pbk keys Hx Hkeys s Hc) as (s' & ? & ? & ? & ? & E & _).
    destruct (import_new_units_calls env pbk keys s) as (l & El & _ & _ & Hp).
    rewrite E in El, Hp. exists s', l.
    split; [exact E|]. split; [exact El|exact (Hp tt eq_refl)].
  - intros done key rest package -> Hk. cbv zeta.
    apply Forall_app in Hkeys as [Hdone _].
    destruct (import_new_units_total env pbk done Hx Hdone s Hc)
      as (s_i & _ & _ & f & n & E & _ & _ & Hf & Hn & _).
    rewrite !import_new_units_app, E. cbn [snd].
    assert (counting s_i) as Hci by (split; eauto).
    pose proof (import_new_units_turn env pbk key [] package s_i Hk Hci) as H1.
    pose proof (import_new_units_turn env pbk key rest package s_i Hk Hci) as H2.
    pose proof (add_new_package_raises env package s_i) as Hr.
    exists f, n. split; [exact Hf|]. split; [exact Hn|].
    destruct (_add_new_package env package s_i) as [[[]|e] s_a]; cbn [fst snd] in *.
    + rewrite H1, H2. cbn. rewrite Hf. repeat split. exact Hn.
    + rewrite (Hr e Hx eq_refl) in H1, H2. rewrite H1, H2. cbn. rewrite Hn.
      repeat split; [exact Hf|]. eexists. split; [reflexivity|].
      apply lookup_insert_eq.
Qed.

(** The keys the loop is given are keys of the lookup table. *)
Lemma new_unit_keys_known (packages : list Package) (existing : list string) :
  Forall (λ k, is_Some (dict_by_key sync.key packages !! k))
    (_resolve_new_units existing (keys (dict_by_key sync.key packages))).
Proof.
  apply Forall_forall. intros k Hk.
  apply elem_of_resolve_new_units in Hk as [Hk _].
  unfold keys in Hk. apply list_elem_of_fmap in Hk as ([k' v] & -> & Hkv).
  apply elem_of_map_to_list in Hkv. cbn. eauto.
Qed.

(** A and B both new, B's download failing: the loop goes through both. *)
Lemma import_failures_are_isolated_witness :
  let pbk := dict_by_key sync.key [pkg_A; pkg_B] in
  let keys := ["A-1.0-alice"; "B-2.0-bob"] in
  only_Exceptions env_B_fails
  /\ Forall (λ k, is_Some (pbk !! k)) keys
  /\ counting ready_to_import
  /\ exists s' l,
       import_new_units env_B_fails pbk keys ready_to_import = (Normal tt, s')
       /\ calls s' = calls ready_to_import ++ l /\ pushes l = 2%nat.
Proof.
  cbv zeta.
  assert (only_Exceptions env_B_fails) as H1.
  { intros h c e H. destruct c; cbn in H; try discriminate.
    case_bool_decide; [injection H as <-; reflexivity | discriminate]. }
  assert (Forall (λ k, is_Some (dict_by_key sync.key [pkg_A; pkg_B] !! k))
            ["A-1.0-alice"; "B-2.0-bob"]) as H2.
  { repeat constructor; eexists; vm_compute; reflexivity. }
  assert (counting ready_to_import) as H3.
  { split; eexists; reflexivity. }
  split; [exact H1|]. split; [exact H2|]. split; [exact H3|].
  exact (proj1 (import_failures_are_isolated env_B_fails _ _ _ H1 H2 H3)).
Defined.

(** *** The import phase *)

(** C7: whenever [_do_import_packages] returns without raising,
    [_import_packages] sets the state of the package-import phase to
    [success] and leaves the counts and the individual-errors map as the
    import left them: packages that failed show in the error count and in
    the map, never in the state of the phase. *)
Theorem import_phase_succeeds_despite_failures env s s1 :
  _do_import_packages env (import_started s) = (Normal tt, s1) ->
  exists s',
    _import_packages env s = (Normal tt, s')
    /\ packages_state (progress_report s') = STATE_SUCCESS
    /\ packages_total_count (progress_report s') = packages_total_count (progress_report s1)
    /\ packages_finished_count (progress_report s')
       = packages_finished_count (progress_report s1)
    /\ packages_error_count (progress_report s') = packages_error_count (progress_report s1)
    /\ packages_individual_errors (progress_report s')
       = packages_individual_errors (progress_report s1)
    /\ calls s' = calls s1 ++ [SetProgress (progress_report s')].
Proof.
  intros H. unfold import_started in H.
  unfold _import_packages. exec. unfold set_attr at 1. unfold now at 1.
  rewrite try_except_run. cbn [progress_report dist_packages calls]. rewrite H.
  unfold set_attr, now, update_progress, record_call. cbn.
  eexists. repeat split.
Qed.

(** B is new and cannot be fetched: one error, nothing finished, and the
    phase ends in [success]. *)
Lemma import_phase_succeeds_despite_failures_witness :
  let s1 := snd (_do_import_packages env_B_fails (import_started index_parsed)) in
  _do_import_packages env_B_fails (import_started index_parsed) = (Normal tt, s1)
  /\ packages_error_count (progress_report s1) = Some 1
  /\ packages_finished_count (progress_report s1) = Some 0
  /\ exists s',
       _import_packages env_B_fails index_parsed = (Normal tt, s')
       /\ packages_state (progress_report s') = STATE_SUCCESS
       /\ packages_error_count (progress_report s') = Some 1.
Proof.
  cbv zeta.
  assert (_do_import_packages env_B_fails (import_started index_parsed)
          = (Normal tt, snd (_do_import_packages env_B_fails (import_started index_parsed))))
    as H by (vm_compute; reflexivity).
  split; [exact H|]. split; [vm_compute; reflexivity|]. split; [vm_compute; reflexivity|].
  destruct (import_phase_succeeds_despite_failures env_B_fails index_parsed _ H)
    as (s' & E & Hs & _ & _ & He & _).
  exists s'. split; [exact E|]. split; [exact Hs|].
  rewrite He. vm_compute. reflexivity.
Defined.

(** *** The run as a whole *)

(** C10: [perform_sync] always hands a report to its caller. Whatever the
    [try] block did, returned or raised, the [finally] block pushes the
    report once more, then returns [build_final_report] of that report;
    nothing else changes. *)
Theorem perform_sync_always_returns_report env s :
  exists rep s',
    perform_sync env s = (Normal rep, s')
    /\ rep = build_final_report (progress_report s')
    /\ last (calls s') = Some (SetProgress (progress_report s'))
    /\ progress_report s' = progress_report (snd (perform_sync_try env s))
    /\ dist_packages s' = dist_packages (snd (perform_sync_try env s))
    /\ calls s' = calls (snd (perform_sync_try env s)) ++ [SetProgress (progress_report s')].
Proof.
  unfold perform_sync, try_finally_return, perform_sync_finally.
  exec. unfold update_progress, get_report, record_call. cbn.
  eexists _, _. split; [reflexivity|]. cbn. repeat split.
  apply last_snoc.
Qed.

(** An exception in flight is dropped: interrupted while the index is
    downloaded, the run still returns a (failure) report. *)
Example perform_sync_discards_interrupt :
  fst (perform_sync_try env_interrupted PackageSyncRun_init) = Raised KeyboardInterrupt
  /\ exists rep, fst (perform_sync env_interrupted PackageSyncRun_init) = Normal rep
                 /\ success_flag rep = false.
Proof. split; [vm_compute; reflexivity|]. eexists. split; vm_compute; reflexivity. Qed.

Ltac unfold_run :=
  unfold _update_dist, index_fetch, index_requested, _create_downloader,
    download_resources, update_from_resources, try_except, call, set_attr,
    set_packages, update_progress, now, get_report, get_packages, record_call,
    pushed in *;
  exec.

Ltac by_faults :=
  repeat match goal with
    | |- context [match faults ?e ?h ?c with _ => _ end] =>
        destruct (faults e h c) eqn:?; cbn in *
    | |- context [if exc_is_Exception ?e then _ else _] =>
        destruct (exc_is_Exception e) eqn:?; cbn in *
    | H : context [match faults ?e ?h ?c with _ => _ end] |- _ =>
        destruct (faults e h c) eqn:?; cbn in *
    end.

(** What [_update_dist] does, by its outcome. *)
Lemma update_dist_effects env s :
  let o := fst (_update_dist env s) in
  let s' := snd (_update_dist env s) in
  let r := progress_report s in
  let r' := progress_report s' in
  (exists l, calls s' = calls s ++ l /\ Forall (λ c, is_store_write c = false) l)
  /\ resource_state r' = Some STATE_RUNNING
  /\ packages_state r' = packages_state r
  /\ match o with
     | Normal true => state r' = STATE_SUCCESS
     | Normal false => state r' = STATE_FAILED /\ dist_packages s' = dist_packages s
     | Raised e => exc_is_Exception e = false /\ state r' = state r
     end.
Proof.
  cbv zeta. unfold_run. cbn. by_faults.
  all: split; [eexists; split; [rewrite <- ?app_assoc; reflexivity|repeat constructor]|].
  all: repeat split; assumption.
Qed.



(** The final report of a sync run is the one [PublishProgressReport]
    builds from the same attributes. *)
Lemma build_final_report_agrees c r :
  publish_progress.build_final_report (as_publish_report c r)
  = Some (build_final_report r).
Proof.
  unfold publish_progress.build_final_report, build_final_report. cbn.
  destruct (length _ =? 0)%nat; reflexivity.
Qed.

Lemma build_final_report_success r :
  success_flag (build_final_report r) = true
  <-> state r = STATE_SUCCESS /\ packages_state r = STATE_SUCCESS.
Proof.
  unfold build_final_report.
  pose proof (ReportFacts.unsuccessful_steps_empty (state r) (packages_state r)) as H.
  destruct (length _ =? 0)%nat; cbn; [tauto|].
  split; [discriminate|]. intros Hs. apply H in Hs. discriminate.
Qed.

(** An empty index ends the run before the package import. When index
    retrieval and parsing succeed and leave an empty package list, nothing
    follows [_update_dist] but the final push, no call writes to the store,
    the index phase is [success], the import phase is still [not-started],
    and the report returned is what [build_final_report] makes of that
    progress. Whether it counts as a success is for
    [SyncProgressReport.build_final_report] to say, which is not part of the
    sources at hand. *)
Lemma empty_index_skips_import env s s1 :
  packages_state (progress_report s) = STATE_NOT_STARTED ->
  _update_dist env s = (Normal true, s1) ->
  dist_packages s1 = [] ->
  exists s',
    perform_sync env s = (Normal (build_final_report (progress_report s1)), s')
    /\ progress_report s' = progress_report s1
    /\ calls s' = calls s1 ++ [SetProgress (progress_report s1)]
    /\ (exists l, calls s' = calls s ++ l /\ Forall (λ c, is_store_write c = false) l)
    /\ state (progress_report s') = STATE_SUCCESS
    /\ packages_state (progress_report s') = STATE_NOT_STARTED.
Proof.
  intros Hst H Hpk.
  pose proof (update_dist_effects env s) as (Hl & _ & Hp & Hs).
  cbv zeta in *. rewrite H in Hl, Hp, Hs. cbn [fst snd] in *.
  destruct Hl as (l & El & Fl).
  unfold perform_sync, try_finally_return, perform_sync_try, perform_sync_finally.
  rewrite (bind_run (_update_dist env)), H. unfold get_packages at 1.
  rewrite (bind_run (λ s0, (Normal (dist_packages s0), s0))), Hpk.
  cbn [length Nat.eqb]. exec. unfold get_report, update_progress, record_call. cbn.
  eexists. split; [reflexivity|]. cbn.
  split; [reflexivity|]. split; [reflexivity|]. split.
  { exists (l ++ [SetProgress (progress_report s1)]). rewrite El, app_assoc.
    split; [reflexivity|]. apply Forall_app. split; [exact Fl|repeat constructor]. }
  split; [exact Hs|]. congruence.
Qed.

(** A fresh run against a remote index that lists no package. *)
Lemma empty_index_skips_import_witness :
  let s1 := snd (_update_dist env_empty PackageSyncRun_init) in
  packages_state (progress_report PackageSyncRun_init) = STATE_NOT_STARTED
  /\ _update_dist env_empty PackageSyncRun_init = (Normal true, s1)
  /\ dist_packages s1 = []
  /\ exists s',
       snd (perform_sync env_empty PackageSyncRun_init) = s'
       /\ state (progress_report s') = STATE_SUCCESS
       /\ packages_state (progress_report s') = STATE_NOT_STARTED.
Proof.
  cbv zeta.
  assert (_update_dist env_empty PackageSyncRun_init
          = (Normal true, snd (_update_dist env_empty PackageSyncRun_init))) as H
    by (vm_compute; reflexivity).
  assert (dist_packages (snd (_update_dist env_empty PackageSyncRun_init)) = []) as Hp
    by (vm_compute; reflexivity).
  split; [reflexivity|]. split; [exact H|]. split; [exact Hp|].
  destruct (empty_index_skips_import env_empty PackageSyncRun_init _ eq_refl H Hp)
    as (s' & E & _ & _ & _ & Hs & Hps).
  exists s'. rewrite E. repeat split; assumption.
Defined.

(** *** Lookup tables *)

Section DictByKey.
Context {V : Type} (k : V -> string).

Lemma foldl_insert_lookup (l : list V) (acc : gmap string V) (x : string) (v : V) :
  foldl (λ d y, <[k y := y]> d) acc l !! x = Some v ->
  acc !! x = Some v \/ (v ∈ l /\ k v = x).
Proof.
  revert acc. induction l as [|a l IH]; intros acc H; cbn in H.
  - left. exact H.
  - destruct (IH _ H) as [Ha|[Hin Hk]].
    + destruct (decide (k a = x)) as [<-|Hne].
      * rewrite lookup_insert_eq in Ha. injection Ha as <-.
        right. split; [left|reflexivity].
      * rewrite lookup_insert_ne in Ha by exact Hne. left. exact Ha.
    + right. split; [right; exact Hin|exact Hk].
Qed.

Lemma foldl_insert_fresh (l : list V) (acc : gmap string V) (x : string) :
  x ∉ k <$> l -> foldl (λ d y, <[k y := y]> d) acc l !! x = acc !! x.
Proof.
  revert acc. induction l as [|a l IH]; intros acc H; cbn.
  - reflexivity.
  - rewrite fmap_cons, not_elem_of_cons in H. destruct H as [Hne Hl].
    rewrite IH by exact Hl. apply lookup_insert_ne. congruence.
Qed.

Lemma foldl_insert_unique (l : list V) (acc : gmap string V) (v : V) :
  NoDup (k <$> l) -> v ∈ l ->
  foldl (λ d y, <[k y := y]> d) acc l !! k v = Some v.
Proof.
  revert acc. induction l as [|a l IH]; intros acc Hnd Hin.
  - inversion Hin.
  - rewrite fmap_cons in Hnd. apply NoDup_cons in Hnd as [Ha Hnd]. cbn.
    apply elem_of_cons in Hin as [->|Hin].
    + rewrite foldl_insert_fresh by exact Ha. apply lookup_insert_eq.
    + apply IH; assumption.
Qed.

Lemma foldl_insert_dom (l : list V) (acc : gmap string V) :
  dom (foldl (λ d y, <[k y := y]> d) acc l) = dom acc ∪ list_to_set (k <$> l).
Proof.
  revert acc. induction l as [|a l IH]; intros acc; cbn.
  - rewrite union_empty_r_L. reflexivity.
  - rewrite IH, dom_insert_L. apply set_eq. intros x.
    rewrite !elem_of_union. tauto.
Qed.

Lemma dict_by_key_lookup_Some (l : list V) (x : string) (v : V) :
  dict_by_key k l !! x = Some v -> v ∈ l /\ k v = x.
Proof.
  intros H. apply foldl_insert_lookup in H as [H|H]; [|exact H].
  rewrite lookup_empty in H. discriminate.
Qed.

Lemma dict_by_key_lookup_unique (l : list V) (v : V) :
  NoDup (k <$> l) -> v ∈ l -> dict_by_key k l !! k v = Some v.
Proof. apply foldl_insert_unique. Qed.

Lemma keys_dict_by_key (l : list V) :
  (list_to_set (keys (dict_by_key k l)) : gset string) = list_to_set (k <$> l).
Proof.
  unfold keys. rewrite <- (leibniz_equiv _ _ (dom_alt (dict_by_key k l))).
  unfold dict_by_key. rewrite foldl_insert_dom, dom_empty_L, union_empty_l_L.
  reflexivity.
Qed.
End DictByKey.

(** *** Removal of the missing units *)

Lemma remove_missing_units_calls env (d : gmap string Unit) keys s :
  exists removed,
    snd (remove_missing_units env d keys s)
    = mkRun (progress_report s) (dist_packages s) (calls s ++ (RemoveUnit <$> removed))
    /\ (forall u, fst (remove_missing_units env d keys s) = Normal u ->
        Forall2 (λ key doomed, d !! key = Some doomed) keys removed).
Proof.
  revert s. induction keys as [|key keys IH]; intros s; cbn [remove_missing_units].
  - exists []. cbn. rewrite app_nil_r, run_eta. split; [reflexivity|]. constructor.
  - unfold getitem. destruct (d !! key) as [doomed|] eqn:Hd.
    + rewrite bind_run. cbn [mret M_ret]. rewrite bind_run.
      unfold remove_unit, call, record_call.
      destruct (faults env (calls s) (RemoveUnit doomed)).
      * exists [doomed]. cbn. split; [reflexivity|discriminate].
      * destruct (IH (mkRun (progress_report s) (dist_packages s)
                        (calls s ++ [RemoveUnit doomed]))) as (removed & E & F).
        exists (doomed :: removed). rewrite E. cbn. rewrite <- app_assoc.
        split; [reflexivity|]. intros u Hu. constructor; [exact Hd|exact (F u Hu)].
    + exists []. cbn. rewrite app_nil_r, run_eta. split; [reflexivity|discriminate].
Qed.

Lemma removed_are_the_missing env s (removed : list Unit) :
  NoDup (existing_keys env) ->
  Forall2 (λ key doomed,
             dict_by_key (λ u, unit_key_str (unit_key u)) (existing_units env) !! key
             = Some doomed)
    (_resolve_remove_units (sync.key <$> (from_unit <$> existing_units env))
       (keys (dict_by_key sync.key (dist_packages s))))
    removed ->
  NoDup removed
  /\ forall u, u ∈ removed
              <-> u ∈ existing_units env
                  /\ unit_key_str (unit_key u) ∈ missing_keys env s.
Proof.
  intros Hnd HF.
  assert (sync.key <$> (from_unit <$> existing_units env) = existing_keys env) as Hek.
  { rewrite <- list_fmap_compose. reflexivity. }
  rewrite Hek in HF.
  set (ks := _resolve_remove_units _ _) in HF.
  assert (forall x, x ∈ ks <-> x ∈ missing_keys env s) as Hks.
  { intros x. unfold ks, _resolve_remove_units, missing_keys, remote_keys.
    rewrite elem_of_elements, keys_dict_by_key. reflexivity. }
  assert (NoDup ks) as Hndk by apply NoDup_elements.
  assert ((λ u, unit_key_str (unit_key u)) <$> removed = ks) as Hmap.
  { clear Hks Hndk. induction HF as [|key doomed ks' removed' Hd _ IH]; [reflexivity|].
    apply dict_by_key_lookup_Some in Hd as [_ Hd]. cbn. rewrite Hd, IH. reflexivity. }
  split.
  - apply (NoDup_fmap_1 (λ u, unit_key_str (unit_key u))). rewrite Hmap. exact Hndk.
  - intros u. split.
    + intros Hu. apply list_elem_of_lookup in Hu as [i Hi].
      destruct (Forall2_lookup_r _ _ _ _ _ HF Hi) as (key & Hkey & Hd).
      apply dict_by_key_lookup_Some in Hd as [Hin Hk].
      split; [exact Hin|]. rewrite Hk. apply Hks.
      apply list_elem_of_lookup. eauto.
    + intros [Hin Hm]. apply Hks in Hm.
      apply list_elem_of_lookup in Hm as [i Hi].
      destruct (Forall2_lookup_l _ _ _ _ _ HF Hi) as (u' & Hu' & Hd).
      rewrite (dict_by_key_lookup_unique _ _ u Hnd Hin) in Hd.
      injection Hd as <-. apply list_elem_of_lookup. eauto.
Qed.

Lemma should_remove_missing_true env :
  truthy (_should_remove_missing env) = true
  <-> config env !! CONFIG_REMOVE_MISSING = Some (Some true).
Proof.
  unfold _should_remove_missing, truthy, DEFAULT_REMOVE_MISSING.
  destruct (config env !! CONFIG_REMOVE_MISSING) as [[[]|]|]; cbn;
    split; congruence.
Qed.

Lemma length_resolve_new_units env s :
  length (_resolve_new_units (sync.key <$> (from_unit <$> existing_units env))
            (keys (dict_by_key sync.key (dist_packages s))))
  = size (new_keys env s).
Proof.
  unfold _resolve_new_units, new_keys, remote_keys, existing_keys.
  rewrite keys_dict_by_key, <- list_fmap_compose. reflexivity.
Qed.

Lemma pushes_preamble t r l :
  pushes ([CreateDownloader; GetUnits t; SetProgress r] ++ l) = S (pushes l).
Proof. reflexivity. Qed.

(** C8: with the store's inventory keyed uniquely, the calls of
    [_do_import_packages] are some calls that remove nothing, followed by
    the removals. Nothing is removed unless the configuration sets
    [remove_missing] to true (absent, it counts as false); where removal
    takes place, every new unit has been processed and pushed before the
    first removal; and when the import returns normally with [remove_missing]
    set, the units removed are, each once, exactly the store's units whose
    key is in existing − remote. *)
Theorem missing_units_removed_last env s :
  NoDup (existing_keys env) ->
  exists before removed,
    calls (snd (_do_import_packages env s))
    = calls s ++ before ++ (RemoveUnit <$> removed)
    /\ Forall (λ c, is_remove c = false) before
    /\ (config env !! CONFIG_REMOVE_MISSING ≠ Some (Some true) -> removed = [])
    /\ (removed ≠ [] \/ fst (_do_import_packages env s) = Normal tt ->
        pushes before = S (size (new_keys env s)))
    /\ (fst (_do_import_packages env s) = Normal tt ->
        config env !! CONFIG_REMOVE_MISSING = Some (Some true) ->
        NoDup removed
        /\ forall u, u ∈ removed
                    <-> u ∈ existing_units env
                        /\ unit_key_str (unit_key u) ∈ missing_keys env s).
Proof.
  intros Hnd.
  pose proof (length_resolve_new_units env s) as Hlen.
  pose proof (removed_are_the_missing env s) as Hrm.
  unfold dict_by_key in Hlen.
  unfold _do_import_packages, _create_downloader, get_units.
  exec. unfold call, get_packages, set_attr, update_progress, record_call. cbn.
  destruct (faults env (calls s) CreateDownloader); cbn.
  { exists [CreateDownloader], []. cbn.
    split; [reflexivity|]. split; [repeat constructor|]. split; [reflexivity|].
    split; [intros [H|H]; [congruence|discriminate]|discriminate]. }
  destruct (faults env (calls s ++ [CreateDownloader]) (GetUnits [TYPE_DEB])); cbn.
  { exists [CreateDownloader; GetUnits [TYPE_DEB]], []. cbn. rewrite <- app_assoc.
    split; [reflexivity|]. split; [repeat constructor|]. split; [reflexivity|].
    split; [intros [H|H]; [congruence|discriminate]|discriminate]. }
  match goal with
  | |- context [import_new_units env ?p ?k ?st] =>
      destruct (import_new_units_calls env p k st) as (l & El & Fl & Pl & Nl);
      destruct (import_new_units env p k st) as [[[]|e] s4]
  end; cbn [fst snd calls dist_packages] in *.
  2:{ eexists ([CreateDownloader; GetUnits [TYPE_DEB]; SetProgress _] ++ l), [].
      rewrite El, app_nil_r, <- !app_assoc. cbn.
      split; [reflexivity|]. split; [repeat constructor; exact Fl|].
      split; [reflexivity|].
      split; [intros [H|H]; [congruence|discriminate]|discriminate]. }
  destruct (truthy (_should_remove_missing env)) eqn:Ht.
  - match goal with
    | |- context [remove_missing_units env ?d ?k s4] =>
        destruct (remove_missing_units_calls env d k s4) as (removed & Er & Fr)
    end.
    eexists ([CreateDownloader; GetUnits [TYPE_DEB]; SetProgress _] ++ l), removed.
    rewrite Er. cbn [calls]. rewrite El, <- !app_assoc.
    split; [reflexivity|]. split; [repeat constructor; exact Fl|].
    split.
    { intros Hc. apply should_remove_missing_true in Ht. contradiction. }
    split.
    { intros _. rewrite pushes_preamble, <- Hlen. f_equal. exact (Nl tt eq_refl). }
    intros Hn _. apply Hrm; [exact Hnd|].
    destruct (remove_missing_units env _ _ s4) as [[[]|?] ?]; [|discriminate Hn].
    exact (Fr tt eq_refl).
  - eexists ([CreateDownloader; GetUnits [TYPE_DEB]; SetProgress _] ++ l), [].
    cbn [fst snd calls fmap list_fmap]. rewrite El, app_nil_r, <- !app_assoc.
    split; [reflexivity|]. split; [repeat constructor; exact Fl|].
    split; [reflexivity|].
    split.
    { intros _. rewrite pushes_preamble, <- Hlen. f_equal. exact (Nl tt eq_refl). }
    intros _ Hc. apply should_remove_missing_true in Hc. congruence.
Qed.

(** Remote {A, B}, store {A, C}, [remove_missing] set. *)
Lemma missing_units_removed_last_witness :
  NoDup (existing_keys env_drop_C)
  /\ exists before removed,
       calls (snd (_do_import_packages env_drop_C index_parsed))
       = calls index_parsed ++ before ++ (RemoveUnit <$> removed)
       /\ Forall (λ c, is_remove c = false) before
       /\ pushes before = 2%nat
       /\ NoDup removed
       /\ forall u, u ∈ removed
                   <-> u ∈ existing_units env_drop_C
                       /\ unit_key_str (unit_key u) ∈ missing_keys env_drop_C index_parsed.
Proof.
  assert (NoDup (existing_keys env_drop_C)) as Hnd.
  { apply (bool_decide_unpack _). vm_compute. reflexivity. }
  split; [exact Hnd|].
  destruct (missing_units_removed_last env_drop_C index_parsed Hnd)
    as (before & removed & E & F & _ & Hp & Hr).
  assert (fst (_do_import_packages env_drop_C index_parsed) = Normal tt) as Hn
    by (vm_compute; reflexivity).
  exists before, removed. split; [exact E|]. split; [exact F|]. split.
  - rewrite (Hp (or_intror Hn)). vm_compute. reflexivity.
  - apply (Hr Hn). reflexivity.
Defined.

(** The scenario of the specification: C, in the store but no longer in the
    index, is removed, and only after B has been imported and pushed. *)
Example drop_C_after_B :
  let new_calls := calls (snd (_do_import_packages env_drop_C index_parsed)) in
  filter (λ c, is_remove c = true) new_calls = [RemoveUnit unit_C]
  /\ last new_calls = Some (RemoveUnit unit_C)
  /\ filter (λ c, is_store_write c = true) new_calls
     = [InitUnit TYPE_DEB (pkg_unit_key pkg_B) "" "pool/B.deb";
        SaveUnit (unit_of "B" "2.0" "bob");
        RemoveUnit unit_C].
Proof. vm_compute. repeat split. Qed.

(** The same index and store without [remove_missing]: nothing is removed. *)
Example keep_C_by_default :
  filter (λ c, is_remove c = true)
    (calls (snd (_do_import_packages
                   (mk_env keep_missing [pkg_A; pkg_B] [unit_A; unit_C] no_faults)
                   index_parsed)))
  = [].
Proof. vm_compute. reflexivity. Qed.

(** *** The state of the index phase *)

(** C9: the index phase does not live in one attribute. [_update_dist]
    writes [running] to [resource_state] and the outcome to [state]: on a
    run whose index cannot be fetched, and on one that goes through,
    [resource_state] is still [running] at the end, while the snapshots
    pushed show [state] going from [not-started] straight to [failed],
    respectively [success]. *)
Theorem update_dist_index_state_fields :
  let failed := snd (_update_dist env_no_index PackageSyncRun_init) in
  let succeeded := snd (_update_dist env_new_B PackageSyncRun_init) in
  (resource_state (progress_report failed) = Some STATE_RUNNING
   /\ state (progress_report failed) = STATE_FAILED
   /\ index_states (calls failed)
      = [(Some STATE_RUNNING, STATE_NOT_STARTED); (Some STATE_RUNNING, STATE_FAILED)])
  /\ (resource_state (progress_report succeeded) = Some STATE_RUNNING
      /\ state (progress_report succeeded) = STATE_SUCCESS
      /\ index_states (calls succeeded)
         = [(Some STATE_RUNNING, STATE_NOT_STARTED); (Some STATE_RUNNING, STATE_SUCCESS)]).
Proof. vm_compute. repeat split. Qed.

(** On every run: [resource_state] is left at [running], and [state] is
    never set to [running]. *)
Lemma update_dist_never_ends_resource_state env s :
  resource_state (progress_report (snd (_update_dist env s))) = Some STATE_RUNNING
  /\ (state (progress_report (snd (_update_dist env s))) = STATE_RUNNING ->
      state (progress_report s) = STATE_RUNNING).
Proof.
  pose proof (update_dist_effects env s) as (_ & Hr & _ & Hs). cbv zeta in *.
  split; [exact Hr|].
  destruct (fst (_update_dist env s)) as [[]|e].
  - rewrite Hs. discriminate.
  - destruct Hs as [-> _]. discriminate.
  - destruct Hs as [_ ->]. tauto.
Qed.

(** The scenario of the specification in which fetching B fails. *)
Example B_fails_scenario :
  let '(out, s') := perform_sync env_B_fails PackageSyncRun_init in
  let r := progress_report s' in
  (exists rep, out = Normal rep /\ success_flag rep = true)
  /\ packages_state r = STATE_SUCCESS
  /\ packages_total_count r = Some 1
  /\ packages_finished_count r = Some 0
  /\ packages_error_count r = Some 1
  /\ packages_individual_errors r = Some {[ "B-2.0-bob" := "IOError: tb" ]}.
Proof. vm_compute. repeat split. eexists. split; reflexivity. Qed.

End SyncFacts.

(** * Further properties *)

(** ** The publish report, continued *)

Module ReportExtras.
Import constants publish_progress scenario scenario_more.

(** *** Failed packages *)

Section AddFailedPackage.
Context (format_traceback : ErrorInfo -> option string).

(** X1: when the error counter holds a number and the unit key has a name, a
    version and an author, [add_failed_package] raises nothing, adds one to
    the counter, records the formatted traceback under "name-version-author",
    leaves every other recorded error as it was (starting from an empty
    mapping when there was none) and touches no other attribute. *)
Theorem add_failed_package_records self unit_key traceback n name version author :
  packages_error_count self = Some n ->
  unit_key !! "name" = Some name ->
  unit_key !! "version" = Some version ->
  unit_key !! "author" = Some author ->
  exists self' errors,
    add_failed_package format_traceback self unit_key traceback = (None, self')
    /\ packages_error_count self' = Some (n + 1)
    /\ packages_individual_errors self' = Some errors
    /\ errors !! error_key_of name version author = Some (format_traceback traceback)
    /\ (forall k, k ≠ error_key_of name version author ->
                  errors !! k = default ∅ (packages_individual_errors self) !! k)
    /\ set_packages_individual_errors (packages_individual_errors self)
         (set_packages_error_count (packages_error_count self) self') = self.
Proof.
  intros Hn H1 H2 H3. unfold add_failed_package. rewrite Hn, H1, H2, H3.
  eexists _, _. split; [reflexivity|]. cbn.
  split; [reflexivity|]. split; [reflexivity|].
  split; [apply lookup_insert_eq|].
  split; [intros k Hk; apply lookup_insert_ne; congruence|].
  destruct self; cbn in *; subst; reflexivity.
Qed.

(** X2: on a report whose error counter is still [None], as [__init__] leaves
    it, [add_failed_package] raises a [TypeError] at its first statement and
    changes nothing. *)
Theorem add_failed_package_needs_count self unit_key traceback :
  packages_error_count self = None ->
  add_failed_package format_traceback self unit_key traceback = (Some TypeError, self).
Proof. intros H. unfold add_failed_package. rewrite H. reflexivity. Qed.

(** X3: when the unit key lacks its name, version or author,
    [add_failed_package] raises a [KeyError] only after it has counted the
    failure and put a mapping in place: the counter is one higher, and no
    entry is recorded. *)
Theorem add_failed_package_incomplete_key self unit_key traceback n :
  packages_error_count self = Some n ->
  unit_key !! "name" = None \/ unit_key !! "version" = None
    \/ unit_key !! "author" = None ->
  exists self',
    add_failed_package format_traceback self unit_key traceback = (Some KeyError, self')
    /\ packages_error_count self' = Some (n + 1)
    /\ packages_individual_errors self'
       = Some (default ∅ (packages_individual_errors self)).
Proof.
  intros Hn Hk. unfold add_failed_package. rewrite Hn.
  destruct (unit_key !! "name") as [a|]; [|eexists; repeat split].
  destruct (unit_key !! "version") as [b|]; [|eexists; repeat split].
  destruct (unit_key !! "author") as [c|]; [|eexists; repeat split].
  destruct Hk as [H|[H|H]]; discriminate H.
Qed.

(** X4: two failures of the same unit are counted twice but recorded once:
    the counter goes up by two, and the entry under the unit's key holds the
    second traceback. *)
Theorem add_failed_package_twice self unit_key tb1 tb2 n name version author :
  packages_error_count self = Some n ->
  unit_key !! "name" = Some name ->
  unit_key !! "version" = Some version ->
  unit_key !! "author" = Some author ->
  exists self1 self2,
    add_failed_package format_traceback self unit_key tb1 = (None, self1)
    /\ add_failed_package format_traceback self1 unit_key tb2 = (None, self2)
    /\ packages_error_count self2 = Some (n + 2)
    /\ packages_individual_errors self2
       = Some (<[error_key_of name version author := format_traceback tb2]>
                 (default ∅ (packages_individual_errors self))).
Proof.
  intros Hn H1 H2 H3. unfold add_failed_package. rewrite Hn, H1, H2, H3. cbn.
  eexists _, _. split; [reflexivity|]. cbn.
  split; [reflexivity|]. cbn. split; [f_equal; lia|].
  rewrite insert_insert_eq. reflexivity.
Qed.

End AddFailedPackage.

Lemma add_failed_package_records_witness :
  exists self' errors,
    add_failed_package show_traceback finished_report unit_key_B (TracebackObject "tb")
    = (None, self')
    /\ packages_error_count self' = Some 2
    /\ packages_individual_errors self' = Some errors
    /\ errors !! "B-2.0-bob" = Some (Some "tb").
Proof.
  destruct (add_failed_package_records show_traceback finished_report unit_key_B
              (TracebackObject "tb") 1 "B" "2.0" "bob" eq_refl eq_refl eq_refl eq_refl)
    as (self' & errors & E & Hc & He & Hl & _).
  exists self', errors. repeat split; assumption.
Defined.

Lemma add_failed_package_needs_count_witness :
  add_failed_package show_traceback (__init__ (Some 1%positive)) unit_key_B
    (TracebackObject "tb")
  = (Some TypeError, __init__ (Some 1%positive)).
Proof. apply add_failed_package_needs_count. reflexivity. Defined.

Lemma add_failed_package_incomplete_key_witness :
  exists self',
    add_failed_package show_traceback counting_report unit_key_anonymous
      (TracebackObject "tb")
    = (Some KeyError, self')
    /\ packages_error_count self' = Some 1
    /\ packages_individual_errors self' = Some ∅.
Proof.
  destruct (add_failed_package_incomplete_key show_traceback counting_report
              unit_key_anonymous (TracebackObject "tb") 0 eq_refl
              (or_intror (or_intror eq_refl)))
    as (self' & E & Hc & He).
  exists self'. repeat split; assumption.
Defined.

Lemma add_failed_package_twice_witness :
  exists self1 self2,
    add_failed_package show_traceback counting_report unit_key_B (TracebackObject "one")
    = (None, self1)
    /\ add_failed_package show_traceback self1 unit_key_B (TracebackObject "two")
       = (None, self2)
    /\ packages_error_count self2 = Some 2
    /\ packages_individual_errors self2 = Some {[ "B-2.0-bob" := Some "two" ]}.
Proof.
  destruct (add_failed_package_twice show_traceback counting_report unit_key_B
              (TracebackObject "one") (TracebackObject "two") 0 "B" "2.0" "bob"
              eq_refl eq_refl eq_refl eq_refl)
    as (self1 & self2 & E1 & E2 & Hc & He).
  exists self1, self2. repeat split; assumption.
Defined.

(** *** Rebuilt reports *)

(** X5: a report rebuilt by [from_progress_dict] has no conduit, so neither
    [update_progress] (which raises [AttributeError]) nor
    [build_final_report] works on it, whatever the snapshot. *)
Theorem rebuilt_report_has_no_conduit
    (format_exception format_traceback : ErrorInfo -> option string) (report : ProgressDict) :
  update_progress format_exception format_traceback (from_progress_dict report)
  = inl AttributeError
  /\ build_final_report (from_progress_dict report) = None.
Proof. split; reflexivity. Qed.

End ReportExtras.

(** ** The sync run, continued *)

Module SyncExtras.
Import constants sync observe scenario scenario_runs inspect SyncFacts.

(** *** Index retrieval *)

(** What [duration.seconds] can be. *)
Lemma timedelta_seconds_range duration : 0 <= timedelta_seconds duration < 86400.
Proof. unfold timedelta_seconds. apply Z.mod_pos_bound. lia. Qed.

(** A run of more than a day, and a clock set back during the run. *)
Lemma timedelta_seconds_wraps :
  timedelta_seconds (100000 * 1000000) = 13600
  /\ timedelta_seconds (-30 * 1000000) = 86370.
Proof. split; reflexivity. Qed.

(** X6: [_update_dist] writes the index fields of the progress report only:
    the fields of the import and of the publish phase are as before, on
    every path, a propagating exception included. *)
Theorem update_dist_leaves_other_phases env s :
  import_phase (progress_report (snd (_update_dist env s)))
  = import_phase (progress_report s)
  /\ publish_phase (progress_report (snd (_update_dist env s)))
     = publish_phase (progress_report s).
Proof.
  unfold_run. cbn. by_faults. all: split; reflexivity.
Qed.

(** X7: no [Exception] leaves [_update_dist]: what propagates is not an
    [Exception], and otherwise the step ends with [state] success or failed
    according to its result. In that case it pushes the progress exactly
    twice: first with [resource_state] running and the rest as before, and
    last with the report it ends with. *)
Theorem update_dist_contains_failures env s :
  let r' := progress_report (snd (_update_dist env s)) in
  match fst (_update_dist env s) with
  | Raised e => exc_is_Exception e = false
  | Normal b =>
      (if b then state r' = STATE_SUCCESS else state r' = STATE_FAILED)
      /\ exists l,
           calls (snd (_update_dist env s))
           = calls s
             ++ SetProgress (set_resource_state (Some STATE_RUNNING) (progress_report s))
                :: l
           /\ last l = Some (SetProgress r')
           /\ pushes l = 1%nat
  end.
Proof.
  cbv zeta. unfold_run. cbn. by_faults.
  all: try assumption.
  all: split; [reflexivity|].
  all: rewrite <- ?app_assoc; cbn [app].
  all: eexists; split; [reflexivity|split; reflexivity].
Qed.

(** X8: when the index is fetched but [update_from_resources] raises an
    [Exception], [_update_dist] returns normally, with [state] failed, the
    parse error message, the exception and its traceback, the [seconds] of
    the time elapsed since the start (a number from 0 to 86399, whole days
    and fractions of a second left out), and a last progress push of that
    very report. *)
Theorem parse_failure_is_recorded env s e :
  let s1 := snd (index_fetch env (index_requested s)) in
  fst (index_fetch env (index_requested s)) = Normal (Some (dist_indexes env)) ->
  fst (update_from_resources env (dist_indexes env) s1) = Raised e ->
  exc_is_Exception e = true ->
  exists s',
    _update_dist env s = (Normal false, s')
    /\ state (progress_report s') = STATE_FAILED
    /\ error_message (progress_report s')
       = Some "Error parsing repository packages resources document"
    /\ exception (progress_report s') = ExceptionObject e
    /\ traceback (progress_report s') = TracebackObject (exc_traceback e)
    /\ execution_time (progress_report s')
       = Some (timedelta_seconds
                 (clock env (calls s1 ++ [UpdateFromResources (dist_indexes env)])
                  - clock env (calls (index_requested s))))
    /\ calls s' = calls s1 ++ [UpdateFromResources (dist_indexes env);
                               SetProgress (progress_report s')].
Proof.
  cbv zeta. intros Hf Hp He. unfold_run. cbn in *. by_faults.
  all: try discriminate.
  all: injection Hp as ->.
  all: try congruence.
  all: eexists; split; [reflexivity|]; cbn.
  all: repeat match goal with |- _ /\ _ => split end.
  all: first [reflexivity | rewrite <- !app_assoc; reflexivity].
Qed.

Lemma parse_failure_is_recorded_witness :
  let s1 := snd (index_fetch env_bad_index (index_requested PackageSyncRun_init)) in
  fst (index_fetch env_bad_index (index_requested PackageSyncRun_init))
  = Normal (Some (dist_indexes env_bad_index))
  /\ fst (update_from_resources env_bad_index (dist_indexes env_bad_index) s1)
     = Raised IOError
  /\ exc_is_Exception IOError = true
  /\ exists s',
       _update_dist env_bad_index PackageSyncRun_init = (Normal false, s')
       /\ state (progress_report s') = STATE_FAILED
       /\ error_message (progress_report s')
          = Some "Error parsing repository packages resources document"
       /\ exception (progress_report s') = ExceptionObject IOError.
Proof.
  cbv zeta.
  assert (fst (index_fetch env_bad_index (index_requested PackageSyncRun_init))
          = Normal (Some (dist_indexes env_bad_index))) as H1 by (vm_compute; reflexivity).
  assert (fst (update_from_resources env_bad_index (dist_indexes env_bad_index)
                 (snd (index_fetch env_bad_index (index_requested PackageSyncRun_init))))
          = Raised IOError) as H2 by (vm_compute; reflexivity).
  split; [exact H1|]. split; [exact H2|]. split; [reflexivity|].
  destruct (parse_failure_is_recorded env_bad_index PackageSyncRun_init IOError
              H1 H2 eq_refl) as (s' & E & Hs & Hm & Hx & _).
  exists s'. repeat split; assumption.
Defined.

(** X9: when fetching and parsing both succeed, [_update_dist] sets [state]
    to success, records the [seconds] of the elapsed time (a number from 0
    to 86399, whole days left out), leaves the error fields alone,
    hands the parsed packages to the distribution, and has called, in this
    order: progress push, downloader creation, index download, parsing,
    progress push. *)
Theorem update_dist_goes_through env s :
  let s1 := snd (index_fetch env (index_requested s)) in
  let s2 := snd (update_from_resources env (dist_indexes env) s1) in
  fst (index_fetch env (index_requested s)) = Normal (Some (dist_indexes env)) ->
  fst (update_from_resources env (dist_indexes env) s1) = Normal tt ->
  exists s',
    _update_dist env s = (Normal true, s')
    /\ dist_packages s' = parsed_packages env (dist_indexes env)
    /\ state (progress_report s') = STATE_SUCCESS
    /\ execution_time (progress_report s')
       = Some (timedelta_seconds
                 (clock env (calls s2) - clock env (calls (index_requested s))))
    /\ error_message (progress_report s') = error_message (progress_report s)
    /\ exception (progress_report s') = exception (progress_report s)
    /\ traceback (progress_report s') = traceback (progress_report s)
    /\ calls s'
       = calls s
         ++ [SetProgress (set_resource_state (Some STATE_RUNNING) (progress_report s));
             CreateDownloader;
             DownloadResources (dist_indexes env);
             UpdateFromResources (dist_indexes env);
             SetProgress (progress_report s')].
Proof.
  cbv zeta. intros Hf Hp. unfold_run. cbn in *. by_faults.
  all: try discriminate.
  all: eexists; split; [reflexivity|]; cbn.
  all: repeat match goal with |- _ /\ _ => split end.
  all: first [reflexivity | rewrite <- !app_assoc; reflexivity].
Qed.

Lemma update_dist_goes_through_witness :
  let s1 := snd (index_fetch env_new_B (index_requested PackageSyncRun_init)) in
  fst (index_fetch env_new_B (index_requested PackageSyncRun_init))
  = Normal (Some (dist_indexes env_new_B))
  /\ fst (update_from_resources env_new_B (dist_indexes env_new_B) s1) = Normal tt
  /\ exists s',
       _update_dist env_new_B PackageSyncRun_init = (Normal true, s')
       /\ dist_packages s' = [pkg_A; pkg_B]
       /\ state (progress_report s') = STATE_SUCCESS.
Proof.
  cbv zeta.
  assert (fst (index_fetch env_new_B (index_requested PackageSyncRun_init))
          = Normal (Some (dist_indexes env_new_B))) as H1 by (vm_compute; reflexivity).
  assert (fst (update_from_resources env_new_B (dist_indexes env_new_B)
                 (snd (index_fetch env_new_B (index_requested PackageSyncRun_init))))
          = Normal tt) as H2 by (vm_compute; reflexivity).
  split; [exact H1|]. split; [exact H2|].
  destruct (update_dist_goes_through env_new_B PackageSyncRun_init H1 H2)
    as (s' & E & Hp & Hs & _).
  exists s'. repeat split; assumption.
Defined.

(** *** What a statement leaves alone *)

Section Keeps.
Context {T : Type} (proj : RunState -> T).

Lemma keeps_ret {A} (a : A) : keeps proj (mret a).
Proof. intros s. reflexivity. Qed.

Lemma keeps_raise {A} (e : PyExc) : keeps proj (raise (A:=A) e).
Proof. intros s. reflexivity. Qed.

Lemma keeps_bind {A B} (m : M A) (k : A -> M B) :
  keeps proj m -> (forall a, keeps proj (k a)) -> keeps proj (m ≫= k).
Proof.
  intros Hm Hk s. rewrite bind_run. specialize (Hm s).
  destruct (m s) as [[a|e] s1]; cbn [snd] in *.
  - rewrite Hk. exact Hm.
  - exact Hm.
Qed.

Lemma keeps_try_except {A} (body : M A) (handler : PyExc -> M A) :
  keeps proj body -> (forall e, keeps proj (handler e)) ->
  keeps proj (try_except body handler).
Proof.
  intros Hb Hh s. rewrite try_except_run. specialize (Hb s).
  destruct (body s) as [[a|e] s1]; cbn [snd] in *; [exact Hb|].
  destruct (exc_is_Exception e); [|exact Hb]. rewrite Hh. exact Hb.
Qed.

Lemma keeps_get_report : keeps proj get_report.
Proof. intros s. reflexivity. Qed.

Lemma keeps_now env : keeps proj (now env).
Proof. intros s. reflexivity. Qed.

Lemma keeps_get_packages : keeps proj get_packages.
Proof. intros s. reflexivity. Qed.

Lemma keeps_getitem {V} (d : gmap string V) k : keeps proj (getitem d k).
Proof. unfold getitem. destruct (d !! k); [apply keeps_ret|apply keeps_raise]. Qed.

Lemma keeps_plus_one n : keeps proj (plus_one n).
Proof. unfold plus_one. destruct n; [apply keeps_ret|apply keeps_raise]. Qed.

Context (Hblind : calls_blind proj).

Lemma blind_to_calls s c :
  proj (mkRun (progress_report s) (dist_packages s) c) = proj s.
Proof. destruct s. apply Hblind. Qed.

Lemma keeps_call env c : keeps proj (call env c).
Proof.
  intros s. unfold call, record_call.
  destruct (faults env (calls s) c); cbn [snd]; apply blind_to_calls.
Qed.

Lemma keeps_update_progress : keeps proj update_progress.
Proof.
  intros s. unfold update_progress, record_call. cbn [snd]. apply blind_to_calls.
Qed.

Lemma keeps_collaborates env P {A} (m : M A) : collaborates env P m -> keeps proj m.
Proof.
  intros Hm s. destruct (Hm s) as (l & E & _). rewrite E. apply blind_to_calls.
Qed.
End Keeps.

Lemma keeps_set_attr {T} (proj : RunState -> T) f :
  (forall s, proj (mkRun (f (progress_report s)) (dist_packages s) (calls s)) = proj s) ->
  keeps proj (set_attr f).
Proof. intros H s. apply H. Qed.

Lemma calls_blind_outside_import_phase : calls_blind outside_import_phase.
Proof. intros r p c1 c2. reflexivity. Qed.

Lemma calls_blind_outside_import_counts : calls_blind outside_import_counts.
Proof. intros r p c1 c2. reflexivity. Qed.

Ltac keep blind :=
  repeat first
    [ apply keeps_ret
    | apply keeps_raise
    | apply keeps_get_report
    | apply keeps_get_packages
    | apply keeps_now
    | apply keeps_getitem
    | apply keeps_plus_one
    | apply keeps_update_progress; exact blind
    | apply keeps_call; exact blind
    | apply keeps_set_attr; intros ?; reflexivity
    | apply keeps_try_except; [|intros ?]
    | apply keeps_bind; [|intros ?] ].

Lemma keeps_add_failed_package env package e tb :
  keeps outside_import_counts (add_failed_package env package e tb).
Proof. unfold add_failed_package. keep calls_blind_outside_import_counts. Qed.

Lemma keeps_import_new_units env pbk keys :
  keeps outside_import_counts (import_new_units env pbk keys).
Proof.
  induction keys as [|k keys IH]; cbn [import_new_units].
  - apply keeps_ret.
  - apply keeps_bind; [apply keeps_getitem|intros package].
    apply keeps_bind.
    { apply keeps_try_except.
      - apply keeps_bind.
        + eapply keeps_collaborates;
            [exact calls_blind_outside_import_counts|apply collaborates_add_new_package].
        + intros _. keep calls_blind_outside_import_counts.
      - intros e. apply keeps_add_failed_package. }
    intros _. apply keeps_bind; [|intros _; exact IH].
    apply keeps_update_progress. exact calls_blind_outside_import_counts.
Qed.

Lemma keeps_remove_missing_units env d keys :
  keeps outside_import_counts (remove_missing_units env d keys).
Proof.
  induction keys as [|k keys IH]; cbn [remove_missing_units].
  - apply keeps_ret.
  - apply keeps_bind; [apply keeps_getitem|intros doomed].
    apply keeps_bind; [|intros _; exact IH].
    unfold remove_unit. apply keeps_call. exact calls_blind_outside_import_counts.
Qed.

Lemma keeps_do_import_packages env :
  keeps outside_import_counts (_do_import_packages env).
Proof.
  unfold _do_import_packages, _create_downloader, get_units.
  apply keeps_bind; [apply keeps_call; exact calls_blind_outside_import_counts|intros _].
  apply keeps_bind; [apply keeps_get_packages|intros packages].
  apply keeps_bind; [keep calls_blind_outside_import_counts|intros units].
  apply keeps_bind; [keep calls_blind_outside_import_counts|intros _].
  apply keeps_bind; [keep calls_blind_outside_import_counts|intros _].
  apply keeps_bind; [keep calls_blind_outside_import_counts|intros _].
  apply keeps_bind; [keep calls_blind_outside_import_counts|intros _].
  apply keeps_bind; [apply keeps_import_new_units|intros _].
  destruct (truthy _); [apply keeps_remove_missing_units|apply keeps_ret].
Qed.

(** *** The import phase, continued *)

(** X10: when [_do_import_packages] raises an [Exception], [_import_packages]
    swallows it: it returns normally with [packages_state] failed, the
    message "Error retrieving packages", the exception and its traceback,
    the [seconds] of the elapsed time (a number from 0 to 86399, whole days
    left out), the counters as the import left them, and one last progress
    push. *)
Theorem import_phase_failure_is_recorded env s e s1 :
  _do_import_packages env (import_started s) = (Raised e, s1) ->
  exc_is_Exception e = true ->
  exists s',
    _import_packages env s = (Normal tt, s')
    /\ packages_state (progress_report s') = STATE_FAILED
    /\ packages_error_message (progress_report s') = Some "Error retrieving packages"
    /\ packages_exception (progress_report s') = ExceptionObject e
    /\ packages_traceback (progress_report s') = TracebackObject (exc_traceback e)
    /\ packages_execution_time (progress_report s')
       = Some (timedelta_seconds (clock env (calls s1) - clock env (calls s)))
    /\ packages_total_count (progress_report s') = packages_total_count (progress_report s1)
    /\ packages_finished_count (progress_report s')
       = packages_finished_count (progress_report s1)
    /\ packages_error_count (progress_report s') = packages_error_count (progress_report s1)
    /\ packages_individual_errors (progress_report s')
       = packages_individual_errors (progress_report s1)
    /\ calls s' = calls s1 ++ [SetProgress (progress_report s')].
Proof.
  intros H He. unfold import_started in H.
  unfold _import_packages. exec. unfold set_attr at 1. unfold now at 1.
  rewrite try_except_run. cbn [progress_report dist_packages calls]. rewrite H, He.
  unfold set_attr, now, update_progress, record_call. cbn.
  eexists. repeat split.
Qed.

Lemma import_phase_failure_is_recorded_witness :
  let s1 := snd (_do_import_packages env_no_index (import_started index_parsed)) in
  _do_import_packages env_no_index (import_started index_parsed) = (Raised IOError, s1)
  /\ exc_is_Exception IOError = true
  /\ exists s',
       _import_packages env_no_index index_parsed = (Normal tt, s')
       /\ packages_state (progress_report s') = STATE_FAILED
       /\ packages_exception (progress_report s') = ExceptionObject IOError.
Proof.
  cbv zeta.
  assert (_do_import_packages env_no_index (import_started index_parsed)
          = (Raised IOError,
             snd (_do_import_packages env_no_index (import_started index_parsed))))
    as H by (vm_compute; reflexivity).
  split; [exact H|]. split; [reflexivity|].
  destruct (import_phase_failure_is_recorded env_no_index index_parsed IOError _ H eq_refl)
    as (s' & E & Hs & _ & Hx & _).
  exists s'. repeat split; assumption.
Defined.

Lemma import_packages_run env s :
  _import_packages env s
  = match _do_import_packages env (import_started s) with
    | (Normal _, s1) =>
        (Normal tt,
         pushed (set_packages_execution_time
                   (Some (timedelta_seconds (clock env (calls s1) - clock env (calls s))))
                   (set_packages_state STATE_SUCCESS (progress_report s1))) s1)
    | (Raised e, s1) =>
        if exc_is_Exception e
        then (Normal tt,
              pushed (set_packages_execution_time
                        (Some (timedelta_seconds (clock env (calls s1) - clock env (calls s))))
                        (set_packages_traceback (TracebackObject (exc_traceback e))
                           (set_packages_exception (ExceptionObject e)
                              (set_packages_error_message
                                 (Some "Error retrieving packages")
                                 (set_packages_state STATE_FAILED
                                    (progress_report s1)))))) s1)
        else (Raised e, s1)
    end.
Proof.
  unfold _import_packages. exec. unfold set_attr at 1. unfold now at 1.
  rewrite try_except_run. cbn [progress_report dist_packages calls].
  change (mkRun _ _ _) with (import_started s).
  destruct (_do_import_packages env (import_started s)) as [[[]|e] s1].
  - reflexivity.
  - destruct (exc_is_Exception e); reflexivity.
Qed.

(** X11: [_import_packages] returns with [packages_state] success or failed,
    an execution time, and the final report pushed last; only an exception
    that is not an [Exception] propagates, and then [packages_state] is
    left at running. *)
Theorem import_packages_ends_the_phase env s :
  let r' := progress_report (snd (_import_packages env s)) in
  match fst (_import_packages env s) with
  | Normal _ =>
      (packages_state r' = STATE_SUCCESS \/ packages_state r' = STATE_FAILED)
      /\ is_Some (packages_execution_time r')
      /\ last (calls (snd (_import_packages env s))) = Some (SetProgress r')
  | Raised e =>
      exc_is_Exception e = false /\ packages_state r' = STATE_RUNNING
  end.
Proof.
  cbv zeta. rewrite import_packages_run.
  pose proof (keeps_do_import_packages env (import_started s)) as Hk.
  destruct (_do_import_packages env (import_started s)) as [[[]|e] s1]; cbn [snd] in Hk.
  - cbn. split; [left; reflexivity|]. split; [eauto|]. apply last_snoc.
  - destruct (exc_is_Exception e) eqn:He.
    + cbn. split; [right; reflexivity|]. split; [eauto|]. apply last_snoc.
    + cbn. split; [exact He|].
      exact (f_equal (λ t, t.1.1.1.1.2) Hk).
Qed.

Lemma keeps_outside_import_phase {A} (m : M A) :
  keeps outside_import_counts m -> keeps outside_import_phase m.
Proof.
  intros H s. exact (f_equal (λ t, t.1.1.1.1.1) (H s)).
Qed.

Lemma keeps_import_packages env : keeps outside_import_phase (_import_packages env).
Proof.
  unfold _import_packages.
  apply keeps_bind; [keep calls_blind_outside_import_phase|intros _].
  apply keeps_bind; [keep calls_blind_outside_import_phase|intros t].
  apply keeps_bind.
  { apply keeps_try_except.
    - apply keeps_bind; [|intros _; apply keeps_ret].
      apply keeps_outside_import_phase, keeps_do_import_packages.
    - intros e. keep calls_blind_outside_import_phase. }
  intros []; keep calls_blind_outside_import_phase.
Qed.

(** X12: [_import_packages] writes the import fields of the progress report
    only: the index and publish fields and the distribution's packages are
    as before, on every path. *)
Theorem import_packages_leaves_other_phases env s :
  index_phase (progress_report (snd (_import_packages env s)))
  = index_phase (progress_report s)
  /\ publish_phase (progress_report (snd (_import_packages env s)))
     = publish_phase (progress_report s)
  /\ dist_packages (snd (_import_packages env s)) = dist_packages s.
Proof.
  pose proof (keeps_import_packages env s) as H.
  split; [exact (f_equal (λ t, t.1.1) H)|].
  split; [exact (f_equal (λ t, t.1.2) H)|exact (f_equal (λ t, t.2) H)].
Qed.

(** *** The import proper *)

Lemma do_import_packages_run env s :
  _do_import_packages env s
  = match faults env (calls s) CreateDownloader with
    | Some e => (Raised e, record_call CreateDownloader s)
    | None =>
        match faults env (calls s ++ [CreateDownloader]) (GetUnits [TYPE_DEB]) with
        | Some e =>
            (Raised e,
             mkRun (progress_report s) (dist_packages s)
               (calls s ++ [CreateDownloader; GetUnits [TYPE_DEB]]))
        | None =>
            match import_new_units env (packages_by_key s) (new_unit_keys env s)
                    (loop_entry env s) with
            | (Normal _, s4) =>
                if truthy (_should_remove_missing env)
                then remove_missing_units env (existing_units_by_key env)
                       (remove_unit_keys env s) s4
                else (Normal tt, s4)
            | (Raised e, s4) => (Raised e, s4)
            end
        end
    end.
Proof.
  unfold _do_import_packages, _create_downloader, get_units.
  exec. unfold call, get_packages, set_attr, update_progress, record_call.
  cbn [progress_report dist_packages calls fst snd].
  destruct (faults env (calls s) CreateDownloader); [reflexivity|].
  cbn [progress_report dist_packages calls fst snd].
  destruct (faults env (calls s ++ [CreateDownloader]) (GetUnits [TYPE_DEB])).
  { cbn [progress_report dist_packages calls fst snd].
    rewrite <- app_assoc. reflexivity. }
  cbn [progress_report dist_packages calls fst snd].
  unfold loop_entry, new_unit_keys, remove_unit_keys, packages_by_key,
    existing_units_by_key, existing_package_keys.
  rewrite <- !app_assoc. cbn [app].
  destruct (import_new_units _ _ _ _) as [[[]|e] s4]; [|reflexivity].
  destruct (truthy _); reflexivity.
Qed.

Lemma processed_counts_app l1 l2 :
  processed_counts (l1 ++ l2) = processed_counts l1 ++ processed_counts l2.
Proof. apply omap_app. Qed.

Lemma processed_counts_import_calls l :
  Forall import_call l -> processed_counts l = [].
Proof.
  induction 1 as [|c l Hc _ IH]; [reflexivity|].
  destruct c; try discriminate Hc; exact IH.
Qed.

(** One turn, from a state in which both counters run. *)
Lemma import_turn_progress env pbk key s f n :
  packages_finished_count (progress_report s) = Some f ->
  packages_error_count (progress_report s) = Some n ->
  match import_turn env pbk key s with
  | (Normal _, s') =>
      exists f' n' l,
        packages_finished_count (progress_report s') = Some f'
        /\ packages_error_count (progress_report s') = Some n'
        /\ f' + n' = f + n + 1 /\ f <= f' /\ n <= n'
        /\ packages_total_count (progress_report s')
           = packages_total_count (progress_report s)
        /\ calls s' = calls s ++ l
        /\ processed_counts l = [f + n + 1]
  | (Raised e, s') =>
      is_Some (pbk !! key) ->
      (exists h c, faults env h c = Some e) /\ exc_is_Exception e = false
  end.
Proof.
  intros Hf Hn. unfold import_turn, getitem.
  destruct (pbk !! key) as [package|].
  2:{ cbn. intros [? H]. discriminate H. }
  rewrite bind_run. cbn [mret M_ret]. rewrite bind_run, try_except_run, bind_run.
  destruct (collaborates_add_new_package env package s) as (l & E & F & R).
  pose proof (processed_counts_import_calls l F) as Fp.
  destruct (_add_new_package env package s) as [[[]|e] s_a]; cbn [fst snd] in E, R; subst s_a.
  - exec. unfold get_report, plus_one. cbn. rewrite Hf. cbn.
    eexists (f + 1), n, (l ++ [SetProgress _]). rewrite app_assoc.
    split; [reflexivity|]. split; [exact Hn|]. split; [lia|]. split; [lia|].
    split; [lia|]. split; [reflexivity|]. split; [reflexivity|].
    rewrite processed_counts_app, Fp. cbn. rewrite Hn. cbn. f_equal. lia.
  - destruct (exc_is_Exception e) eqn:He.
    + unfold add_failed_package, get_report, plus_one. exec. cbn. rewrite Hn. cbn.
      eexists f, (n + 1), (l ++ [SetProgress _]). rewrite app_assoc.
      split; [exact Hf|]. split; [reflexivity|]. split; [lia|]. split; [lia|].
      split; [lia|]. split; [reflexivity|]. split; [reflexivity|].
      rewrite processed_counts_app, Fp. cbn. rewrite Hf. cbn. f_equal. lia.
    + cbn. intros _. split; [apply R; reflexivity|exact He].
Qed.

Lemma import_new_units_progress env pbk keys :
  forall s f n,
  packages_finished_count (progress_report s) = Some f ->
  packages_error_count (progress_report s) = Some n ->
  match import_new_units env pbk keys s with
  | (Normal _, s') =>
      exists f' n' l,
        packages_finished_count (progress_report s') = Some f'
        /\ packages_error_count (progress_report s') = Some n'
        /\ f' + n' = f + n + Z.of_nat (length keys) /\ f <= f' /\ n <= n'
        /\ packages_total_count (progress_report s')
           = packages_total_count (progress_report s)
        /\ calls s' = calls s ++ l
        /\ processed_counts l = (λ i, f + n + Z.of_nat i) <$> seq 1 (length keys)
  | (Raised e, s') =>
      Forall (λ k, is_Some (pbk !! k)) keys ->
      (exists h c, faults env h c = Some e) /\ exc_is_Exception e = false
  end.
Proof.
  induction keys as [|k keys IH]; intros s f n Hf Hn.
  - cbn. exists f, n, []. rewrite app_nil_r.
    repeat split; try assumption; lia.
  - rewrite import_new_units_cons, bind_run.
    pose proof (import_turn_progress env pbk k s f n Hf Hn) as Ht.
    destruct (import_turn env pbk k s) as [[[]|e] s1].
    + destruct Ht as (f1 & n1 & l1 & Hf1 & Hn1 & Hs1 & Hlf & Hln & Ht1 & El1 & Pl1).
      specialize (IH s1 f1 n1 Hf1 Hn1).
      destruct (import_new_units env pbk keys s1) as [[[]|e] s2].
      * destruct IH as (f2 & n2 & l2 & Hf2 & Hn2 & Hs2 & Hlf2 & Hln2 & Ht2 & El2 & Pl2).
        exists f2, n2, (l1 ++ l2). rewrite El2, El1, app_assoc.
        split; [exact Hf2|]. split; [exact Hn2|].
        split; [cbn [length]; lia|]. split; [lia|]. split; [lia|].
        split; [congruence|]. split; [reflexivity|].
        rewrite processed_counts_app, Pl1, Pl2. cbn [length seq fmap list_fmap app].
        apply (f_equal2 cons); [lia|].
        rewrite <- (fmap_S_seq 1), <- list_fmap_compose.
        apply list_fmap_ext. intros i x _. cbn. lia.
      * intros Hk. apply Forall_cons in Hk as [_ Hk]. exact (IH Hk).
    + intros Hk. apply Forall_cons in Hk as [Hk _]. exact (Ht Hk).
Qed.

Lemma new_unit_keys_in_table env s :
  Forall (λ k, is_Some (packages_by_key s !! k)) (new_unit_keys env s).
Proof. apply new_unit_keys_known. Qed.

Lemma remove_unit_keys_in_table env s :
  Forall (λ k, is_Some (existing_units_by_key env !! k)) (remove_unit_keys env s).
Proof.
  apply Forall_forall. intros k Hk.
  apply elem_of_resolve_remove_units in Hk as [Hk _].
  unfold existing_package_keys in Hk. rewrite <- list_fmap_compose in Hk.
  apply elem_of_dom. unfold existing_units_by_key, dict_by_key.
  rewrite foldl_insert_dom, dom_empty_L, union_empty_l_L.
  apply elem_of_list_to_set. exact Hk.
Qed.

Lemma remove_missing_units_raises env (d : gmap string Unit) keys :
  Forall (λ k, is_Some (d !! k)) keys ->
  forall s e, fst (remove_missing_units env d keys s) = Raised e ->
              exists h c, faults env h c = Some e.
Proof.
  induction 1 as [|k keys [doomed Hd] _ IH]; intros s e; cbn [remove_missing_units].
  - discriminate.
  - unfold getitem. rewrite Hd. rewrite bind_run. cbn [mret M_ret]. rewrite bind_run.
    unfold remove_unit, call.
    destruct (faults env (calls s) (RemoveUnit doomed)) eqn:Hf.
    + intros [= <-]. eauto.
    + apply IH.
Qed.

Lemma loop_entry_counts env s :
  packages_finished_count (progress_report (loop_entry env s)) = Some 0
  /\ packages_error_count (progress_report (loop_entry env s)) = Some 0
  /\ packages_total_count (progress_report (loop_entry env s))
     = Some (Z.of_nat (size (new_keys env s))).
Proof.
  repeat split. cbn. do 2 f_equal.
  unfold new_unit_keys, existing_package_keys, packages_by_key.
  apply length_resolve_new_units.
Qed.

(** X13: [_do_import_packages] raises only what a collaborator raised: its
    own lookups [packages_by_key[key]] and [existing_units_by_key[key]] and
    its counter increments never fail. *)
Theorem do_import_packages_raises_for_collaborators env s e :
  fst (_do_import_packages env s) = Raised e ->
  exists h c, faults env h c = Some e.
Proof.
  rewrite do_import_packages_run.
  destruct (faults env (calls s) CreateDownloader) eqn:H1.
  { intros [= <-]. eauto. }
  destruct (faults env (calls s ++ [CreateDownloader]) (GetUnits [TYPE_DEB])) eqn:H2.
  { intros [= <-]. eauto. }
  destruct (loop_entry_counts env s) as (Hf & Hn & _).
  pose proof (import_new_units_progress env (packages_by_key s) (new_unit_keys env s)
                (loop_entry env s) 0 0 Hf Hn) as Hl.
  destruct (import_new_units _ _ _ _) as [[[]|e'] s4].
  - destruct (truthy _); [|discriminate].
    apply remove_missing_units_raises, remove_unit_keys_in_table.
  - intros [= <-]. apply Hl, new_unit_keys_in_table.
Qed.

Lemma do_import_packages_raises_for_collaborators_witness :
  fst (_do_import_packages env_no_index index_parsed) = Raised IOError
  /\ exists h c, faults env_no_index h c = Some IOError.
Proof.
  assert (fst (_do_import_packages env_no_index index_parsed) = Raised IOError) as H
    by (vm_compute; reflexivity).
  split; [exact H|].
  exact (do_import_packages_raises_for_collaborators env_no_index index_parsed IOError H).
Defined.

Lemma processed_counts_removals (removed : list Unit) :
  processed_counts (RemoveUnit <$> removed) = [].
Proof. induction removed as [|u l IH]; [reflexivity|exact IH]. Qed.

(** X14: when [_do_import_packages] returns, every new unit has been counted
    once, as finished or as failed: the two counters add up to
    [packages_total_count], which is the number of new keys. *)
Theorem every_new_unit_is_counted env s s' :
  _do_import_packages env s = (Normal tt, s') ->
  exists f n,
    packages_finished_count (progress_report s') = Some f
    /\ packages_error_count (progress_report s') = Some n
    /\ packages_total_count (progress_report s') = Some (f + n)
    /\ f + n = Z.of_nat (size (new_keys env s))
    /\ 0 <= f /\ 0 <= n.
Proof.
  rewrite do_import_packages_run.
  destruct (faults env (calls s) CreateDownloader); [discriminate|].
  destruct (faults env (calls s ++ [CreateDownloader]) (GetUnits [TYPE_DEB]));
    [discriminate|].
  destruct (loop_entry_counts env s) as (Hf & Hn & Ht).
  pose proof (import_new_units_progress env (packages_by_key s) (new_unit_keys env s)
                (loop_entry env s) 0 0 Hf Hn) as Hl.
  pose proof (length_resolve_new_units env s) as Hlen.
  change (length _) with (length (new_unit_keys env s)) in Hlen.
  destruct (import_new_units _ _ _ _) as [[[]|e'] s4]; [|discriminate].
  destruct Hl as (f & n & l & Hf' & Hn' & Hsum & Hlf & Hln & Htot & _).
  intros H.
  assert (progress_report s' = progress_report s4) as ->.
  { destruct (truthy (_should_remove_missing env)).
    - destruct (remove_missing_units_calls env (existing_units_by_key env)
                  (remove_unit_keys env s) s4) as (removed & E & _).
      rewrite H in E. cbn in E. subst s'. reflexivity.
    - injection H as <-. reflexivity. }
  exists f, n. rewrite Htot, Ht, <- Hlen.
  repeat split; try assumption; try lia. f_equal. lia.
Qed.

Lemma every_new_unit_is_counted_witness :
  let s' := snd (_do_import_packages env_empty_store index_parsed) in
  _do_import_packages env_empty_store index_parsed = (Normal tt, s')
  /\ exists f n,
       packages_finished_count (progress_report s') = Some f
       /\ packages_error_count (progress_report s') = Some n
       /\ packages_total_count (progress_report s') = Some (f + n)
       /\ f + n = 2.
Proof.
  cbv zeta.
  assert (_do_import_packages env_empty_store index_parsed
          = (Normal tt, snd (_do_import_packages env_empty_store index_parsed))) as H
    by (vm_compute; reflexivity).
  split; [exact H|].
  destruct (every_new_unit_is_counted env_empty_store index_parsed _ H)
    as (f & n & Hf & Hn & Ht & Hsum & _).
  exists f, n. split; [exact Hf|]. split; [exact Hn|]. split; [exact Ht|].
  rewrite Hsum. vm_compute. reflexivity.
Defined.

(** X15: the progress pushes of a completed [_do_import_packages] show the
    number of processed packages (finished plus failed) going through
    0, 1, ..., total: one push before the loop and one after each
    package. *)
Theorem pushes_count_up_to_total env s s' :
  _do_import_packages env s = (Normal tt, s') ->
  exists l,
    calls s' = calls s ++ l
    /\ processed_counts l = Z.of_nat <$> seq 0 (S (size (new_keys env s))).
Proof.
  rewrite do_import_packages_run.
  destruct (faults env (calls s) CreateDownloader); [discriminate|].
  destruct (faults env (calls s ++ [CreateDownloader]) (GetUnits [TYPE_DEB]));
    [discriminate|].
  destruct (loop_entry_counts env s) as (Hf & Hn & Ht).
  pose proof (import_new_units_progress env (packages_by_key s) (new_unit_keys env s)
                (loop_entry env s) 0 0 Hf Hn) as Hl.
  pose proof (length_resolve_new_units env s) as Hlen.
  change (length _) with (length (new_unit_keys env s)) in Hlen.
  destruct (import_new_units _ _ _ _) as [[[]|e'] s4]; [|discriminate].
  destruct Hl as (f & n & l & _ & _ & _ & _ & _ & _ & El & Pl).
  intros H.
  assert (exists removed, calls s' = calls s4 ++ (RemoveUnit <$> removed))
    as (removed & Er).
  { destruct (truthy (_should_remove_missing env)).
    - destruct (remove_missing_units_calls env (existing_units_by_key env)
                  (remove_unit_keys env s) s4) as (removed & E & _).
      rewrite H in E. cbn in E. subst s'. exists removed. reflexivity.
    - injection H as <-. exists []. cbn. rewrite app_nil_r. reflexivity. }
  exists ([CreateDownloader; GetUnits [TYPE_DEB];
           SetProgress (progress_report (loop_entry env s))]
          ++ l ++ (RemoveUnit <$> removed)).
  split.
  { rewrite Er, El. unfold loop_entry. cbn [calls progress_report].
    rewrite <- !app_assoc. reflexivity. }
  rewrite !processed_counts_app, processed_counts_removals, Pl, app_nil_r, <- Hlen.
  unfold processed_counts at 1. cbn [omap list_omap]. rewrite Hf, Hn.
  cbn [app seq fmap list_fmap]. apply (f_equal2 cons); [reflexivity|].
  apply list_fmap_ext. intros i x _. lia.
Qed.

Lemma pushes_count_up_to_total_witness :
  let s' := snd (_do_import_packages env_empty_store index_parsed) in
  _do_import_packages env_empty_store index_parsed = (Normal tt, s')
  /\ exists l, calls s' = calls index_parsed ++ l /\ processed_counts l = [0; 1; 2].
Proof.
  cbv zeta.
  assert (_do_import_packages env_empty_store index_parsed
          = (Normal tt, snd (_do_import_packages env_empty_store index_parsed))) as H
    by (vm_compute; reflexivity).
  split; [exact H|].
  destruct (pushes_count_up_to_total env_empty_store index_parsed _ H) as (l & El & Pl).
  exists l. split; [exact El|]. rewrite Pl. vm_compute. reflexivity.
Defined.

Lemma resolve_nothing (a b : list string) :
  (list_to_set a : gset string) = list_to_set b ->
  _resolve_new_units a b = [] /\ _resolve_remove_units a b = [].
Proof.
  intros H. unfold _resolve_new_units, _resolve_remove_units.
  rewrite H, difference_diag_L. split; apply elements_empty.
Qed.

(** X16: when the remote index and the store hold the same keys,
    [_do_import_packages] downloads nothing and writes nothing to the store,
    and its counters end at zero. *)
Theorem unchanged_index_imports_nothing env s :
  (list_to_set (remote_keys s) : gset string) = list_to_set (existing_keys env) ->
  exists l,
    calls (snd (_do_import_packages env s)) = calls s ++ l
    /\ Forall (λ c, is_store_write c = false /\ is_import_call c = false) l
    /\ (fst (_do_import_packages env s) = Normal tt ->
        let r' := progress_report (snd (_do_import_packages env s)) in
        packages_total_count r' = Some 0
        /\ packages_finished_count r' = Some 0
        /\ packages_error_count r' = Some 0).
Proof.
  intros Hsame.
  assert (new_unit_keys env s = [] /\ remove_unit_keys env s = []) as [Hnew Hrm].
  { apply resolve_nothing. unfold existing_package_keys, packages_by_key.
    rewrite keys_dict_by_key, <- list_fmap_compose. symmetry. exact Hsame. }
  rewrite do_import_packages_run.
  destruct (faults env (calls s) CreateDownloader).
  { exists [CreateDownloader]. split; [reflexivity|].
    split; [repeat constructor|discriminate]. }
  destruct (faults env (calls s ++ [CreateDownloader]) (GetUnits [TYPE_DEB])).
  { exists [CreateDownloader; GetUnits [TYPE_DEB]]. split; [reflexivity|].
    split; [repeat constructor|discriminate]. }
  rewrite Hrm, Hnew. cbn [import_new_units remove_missing_units mret M_ret].
  exists [CreateDownloader; GetUnits [TYPE_DEB];
          SetProgress (progress_report (loop_entry env s))].
  destruct (loop_entry_counts env s) as (Hf & Hn & _).
  destruct (truthy (_should_remove_missing env)); cbn [fst snd].
  all: split; [reflexivity|]; split; [repeat constructor|].
  all: intros _; split; [|split; assumption].
  all: unfold loop_entry; cbn [progress_report]; rewrite Hnew; reflexivity.
Qed.

Lemma unchanged_index_imports_nothing_witness :
  (list_to_set (remote_keys in_sync) : gset string) = list_to_set (existing_keys env_in_sync)
  /\ exists l,
       calls (snd (_do_import_packages env_in_sync in_sync)) = calls in_sync ++ l
       /\ Forall (λ c, is_store_write c = false /\ is_import_call c = false) l.
Proof.
  assert ((list_to_set (remote_keys in_sync) : gset string)
          = list_to_set (existing_keys env_in_sync)) as H by (vm_compute; reflexivity).
  split; [exact H|].
  destruct (unchanged_index_imports_nothing env_in_sync in_sync H) as (l & El & Fl & _).
  exists l. split; assumption.
Defined.

(** *** Lookup tables, continued *)

Lemma dict_by_key_snoc {V} (k : V -> string) (l : list V) (a : V) :
  dict_by_key k (l ++ [a]) = <[k a := a]> (dict_by_key k l).
Proof. unfold dict_by_key. rewrite foldl_app. reflexivity. Qed.

Lemma dict_by_key_lookup_last {V} (k : V -> string) (l : list V) x v :
  dict_by_key k l !! x = Some v ->
  exists l1 l2, l = l1 ++ v :: l2 /\ k v = x /\ x ∉ k <$> l2.
Proof.
  revert v. induction l as [|a l IH] using rev_ind; intros v H.
  - unfold dict_by_key in H. cbn in H. rewrite lookup_empty in H. discriminate.
  - rewrite dict_by_key_snoc in H.
    destruct (decide (k a = x)) as [<-|Hne].
    + rewrite lookup_insert_eq in H. injection H as <-.
      exists l, []. split; [reflexivity|]. split; [reflexivity|].
      cbn. apply not_elem_of_nil.
    + rewrite lookup_insert_ne in H by exact Hne.
      destruct (IH v H) as (l1 & l2 & -> & Hk & Hl2).
      exists l1, (l2 ++ [a]). split; [rewrite <- app_assoc; reflexivity|].
      split; [exact Hk|]. rewrite fmap_app, elem_of_app. cbn.
      rewrite list_elem_of_singleton. intros [?|?]; [tauto|congruence].
Qed.

(** X18: the lookup tables [dict([(p.key, p) ...])] and
    [existing_units_by_key] have exactly the keys of the list they are built
    from, and under each key the last element that carries it. *)
Theorem dict_by_key_keeps_the_last {V} (k : V -> string) (l : list V) :
  (forall x, is_Some (dict_by_key k l !! x) <-> x ∈ k <$> l)
  /\ (forall x v, dict_by_key k l !! x = Some v <->
                  exists l1 l2, l = l1 ++ v :: l2 /\ k v = x /\ x ∉ k <$> l2).
Proof.
  split.
  - intros x. rewrite <- elem_of_dom. unfold dict_by_key.
    rewrite foldl_insert_dom, dom_empty_L, union_empty_l_L.
    apply elem_of_list_to_set.
  - intros x v. split; [apply dict_by_key_lookup_last|].
    intros (l1 & l2 & -> & <- & Hl2).
    unfold dict_by_key. rewrite foldl_app. cbn.
    rewrite foldl_insert_fresh by exact Hl2. apply lookup_insert_eq.
Qed.

(** *** Reconciliation, continued *)

(** X19: [_resolve_new_units] and [_resolve_remove_units] return lists
    without repetition, no longer than the remote and the existing keys, and
    every remote key is new or existing, every existing key missing or
    remote. *)
Theorem resolved_keys_are_distinct (existing remote : list string) :
  let new := _resolve_new_units existing remote in
  let missing := _resolve_remove_units existing remote in
  NoDup new /\ NoDup missing
  /\ (length new <= length remote)%nat
  /\ (length missing <= length existing)%nat
  /\ (forall k, k ∈ remote -> k ∈ new \/ k ∈ existing)
  /\ (forall k, k ∈ existing -> k ∈ missing \/ k ∈ remote).
Proof.
  cbv zeta.
  assert (forall a b : list string,
            NoDup (elements ((list_to_set a : gset string) ∖ list_to_set b))
            /\ (length (elements ((list_to_set a : gset string) ∖ list_to_set b))
                <= length a)%nat) as H.
  { intros a b. split; [apply NoDup_elements|].
    apply submseteq_length, NoDup_submseteq; [apply NoDup_elements|].
    intros x Hx. apply elem_of_elements, elem_of_difference in Hx as [Hx _].
    apply elem_of_list_to_set in Hx. exact Hx. }
  split; [apply H|]. split; [apply H|]. split; [apply H|]. split; [apply H|].
  split.
  - intros k Hk. destruct (decide (k ∈ existing)); [right; assumption|].
    left. apply elem_of_resolve_new_units. tauto.
  - intros k Hk. destruct (decide (k ∈ remote)); [right; assumption|].
    left. apply elem_of_resolve_remove_units. tauto.
Qed.

Lemma elem_of_remove_unit_keys env s k :
  k ∈ remove_unit_keys env s <-> k ∈ missing_keys env s.
Proof.
  unfold remove_unit_keys, _resolve_remove_units, missing_keys, existing_package_keys,
    packages_by_key, remote_keys, existing_keys.
  rewrite elem_of_elements, keys_dict_by_key, <- list_fmap_compose. reflexivity.
Qed.

Lemma keys_of_looked_up {V} (k : V -> string) (l : list V) ks vs :
  Forall2 (λ key v, dict_by_key k l !! key = Some v) ks vs -> k <$> vs = ks.
Proof.
  induction 1 as [|key v ks vs Hd _ IH]; [reflexivity|].
  apply dict_by_key_lookup_Some in Hd as [_ Hd]. cbn. rewrite Hd, IH. reflexivity.
Qed.

(** X17: with removal of missing units switched on, a completed
    [_do_import_packages] ends with its removals, one per missing key even
    when the store holds several units under one key; the unit removed is
    then the last one listed under its key. *)
Theorem one_unit_per_missing_key env s s' :
  _do_import_packages env s = (Normal tt, s') ->
  config env !! CONFIG_REMOVE_MISSING = Some (Some true) ->
  exists before removed,
    calls s' = calls s ++ before ++ (RemoveUnit <$> removed)
    /\ Forall (λ c, is_remove c = false) before
    /\ NoDup ((λ u, unit_key_str (unit_key u)) <$> removed)
    /\ (forall k, k ∈ (λ u, unit_key_str (unit_key u)) <$> removed
                  <-> k ∈ missing_keys env s)
    /\ length removed = size (missing_keys env s)
    /\ (forall u, u ∈ removed ->
          exists l1 l2,
            existing_units env = l1 ++ u :: l2
            /\ unit_key_str (unit_key u) ∉ (λ u', unit_key_str (unit_key u')) <$> l2).
Proof.
  intros H Hc. apply should_remove_missing_true in Hc.
  rewrite do_import_packages_run, Hc in H.
  destruct (faults env (calls s) CreateDownloader); [discriminate|].
  destruct (faults env (calls s ++ [CreateDownloader]) (GetUnits [TYPE_DEB]));
    [discriminate|].
  destruct (import_new_units_calls env (packages_by_key s) (new_unit_keys env s)
              (loop_entry env s)) as (l & El & Fl & _ & _).
  destruct (import_new_units _ _ _ _) as [[[]|e'] s4]; [|discriminate].
  cbn [snd] in El.
  destruct (remove_missing_units_calls env (existing_units_by_key env)
              (remove_unit_keys env s) s4) as (removed & Er & Fr).
  rewrite H in Er, Fr. cbn [fst snd] in Er, Fr. specialize (Fr tt eq_refl).
  assert ((λ u, unit_key_str (unit_key u)) <$> removed = remove_unit_keys env s) as Hmap.
  { exact (keys_of_looked_up _ _ _ _ Fr). }
  exists ([CreateDownloader; GetUnits [TYPE_DEB];
           SetProgress (progress_report (loop_entry env s))] ++ l), removed.
  split.
  { rewrite Er. cbn [calls]. rewrite El. unfold loop_entry. cbn [calls progress_report].
    rewrite <- !app_assoc. reflexivity. }
  split; [repeat constructor; exact Fl|].
  rewrite Hmap.
  split; [apply NoDup_elements|]. split; [apply elem_of_remove_unit_keys|].
  split.
  { rewrite <- (length_fmap (λ u, unit_key_str (unit_key u))), Hmap.
    unfold remove_unit_keys, _resolve_remove_units, missing_keys, existing_package_keys,
      packages_by_key, remote_keys, existing_keys.
    rewrite keys_dict_by_key, <- list_fmap_compose. reflexivity. }
  intros u Hu. apply list_elem_of_lookup in Hu as [i Hi].
  destruct (Forall2_lookup_r _ _ _ _ _ Fr Hi) as (key & _ & Hd).
  apply dict_by_key_lookup_last in Hd as (l1 & l2 & E & <- & Hl2).
  exists l1, l2. split; assumption.
Qed.

Lemma one_unit_per_missing_key_witness :
  let s' := snd (_do_import_packages env_two_C index_parsed) in
  _do_import_packages env_two_C index_parsed = (Normal tt, s')
  /\ config env_two_C !! CONFIG_REMOVE_MISSING = Some (Some true)
  /\ exists before removed,
       calls s' = calls index_parsed ++ before ++ (RemoveUnit <$> removed)
       /\ Forall (λ c, is_remove c = false) before
       /\ length removed = 1%nat.
Proof.
  cbv zeta.
  assert (_do_import_packages env_two_C index_parsed
          = (Normal tt, snd (_do_import_packages env_two_C index_parsed))) as H
    by (vm_compute; reflexivity).
  split; [exact H|]. split; [reflexivity|].
  destruct (one_unit_per_missing_key env_two_C index_parsed _ H eq_refl)
    as (before & removed & E & F & _ & _ & Hlen & _).
  exists before, removed. split; [exact E|]. split; [exact F|].
  rewrite Hlen. vm_compute. reflexivity.
Defined.

(** *** The run as a whole, continued *)

(** X20: [perform_sync] ignores what [_update_dist] reports. When the index
    step has failed but the distribution still lists packages,
    [_import_packages] runs all the same, and the final report is built from
    the progress it leaves and flags a failure. *)
Theorem import_follows_a_failed_index env s :
  let s1 := snd (_update_dist env s) in
  let s2 := snd (_import_packages env s1) in
  fst (_update_dist env s) = Normal false ->
  dist_packages s1 ≠ [] ->
  exists rep s',
    perform_sync env s = (Normal rep, s')
    /\ progress_report s' = progress_report s2
    /\ calls s' = calls s2 ++ [SetProgress (progress_report s2)]
    /\ state (progress_report s') = STATE_FAILED
    /\ (packages_state (progress_report s') = STATE_RUNNING
        \/ packages_state (progress_report s') = STATE_SUCCESS
        \/ packages_state (progress_report s') = STATE_FAILED)
    /\ success_flag rep = false.
Proof.
  cbv zeta. intros Hf Hp.
  pose proof (update_dist_effects env s) as (_ & _ & _ & Hs). cbv zeta in Hs.
  rewrite Hf in Hs. destruct Hs as [Hs _].
  unfold perform_sync, try_finally_return, perform_sync_try, perform_sync_finally.
  rewrite (bind_run (_update_dist env)).
  destruct (_update_dist env s) as [[b|e] s1]; [|discriminate Hf].
  cbn [fst snd] in *. unfold get_packages at 1.
  rewrite (bind_run (λ s0, (Normal (dist_packages s0), s0))).
  destruct (dist_packages s1) as [|p ps] eqn:Hd; [contradiction|].
  cbn [length Nat.eqb]. rewrite (bind_run (_import_packages env)).
  pose proof (keeps_import_packages env s1) as Hi.
  assert (state (progress_report (snd (_import_packages env s1))) = STATE_FAILED) as Hst.
  { rewrite <- Hs. exact (f_equal (λ t, t.1.1.1.1.1.1.2) Hi). }
  assert (packages_state (progress_report (snd (_import_packages env s1))) = STATE_RUNNING
          \/ packages_state (progress_report (snd (_import_packages env s1))) = STATE_SUCCESS
          \/ packages_state (progress_report (snd (_import_packages env s1))) = STATE_FAILED)
    as He.
  { rewrite import_packages_run.
    pose proof (keeps_do_import_packages env (import_started s1)) as Hk.
    destruct (_do_import_packages env (import_started s1)) as [[[]|e] s3];
      cbn [snd] in Hk.
    - right. left. reflexivity.
    - destruct (exc_is_Exception e).
      + right. right. reflexivity.
      + left. exact (f_equal (λ t, t.1.1.1.1.2) Hk). }
  destruct (_import_packages env s1) as [[[]|e2] s2]; cbn [fst snd] in *.
  all: exec; unfold update_progress, get_report, record_call; cbn.
  all: eexists _, _; split; [reflexivity|]; cbn.
  all: split; [reflexivity|]; split; [reflexivity|]; split; [exact Hst|].
  all: split; [tauto|].
  all: destruct (success_flag _) eqn:Hflag; [|reflexivity].
  all: apply build_final_report_success in Hflag as [Hflag _].
  all: rewrite Hst in Hflag; discriminate Hflag.
Qed.

Lemma import_follows_a_failed_index_witness :
  fst (_update_dist env_no_index used_before) = Normal false
  /\ dist_packages (snd (_update_dist env_no_index used_before)) ≠ []
  /\ exists rep s',
       perform_sync env_no_index used_before = (Normal rep, s')
       /\ state (progress_report s') = STATE_FAILED
       /\ (packages_state (progress_report s') = STATE_RUNNING
           \/ packages_state (progress_report s') = STATE_SUCCESS
           \/ packages_state (progress_report s') = STATE_FAILED)
       /\ success_flag rep = false.
Proof.
  assert (fst (_update_dist env_no_index used_before) = Normal false) as H1
    by (vm_compute; reflexivity).
  assert (dist_packages (snd (_update_dist env_no_index used_before)) ≠ []) as H2
    by (vm_compute; discriminate).
  split; [exact H1|]. split; [exact H2|].
  destruct (import_follows_a_failed_index env_no_index used_before H1 H2)
    as (rep & s' & E & _ & _ & Hs & Hp & Hf).
  exists rep, s'. repeat split; assumption.
Defined.

(** *** Importing one package *)

Lemma content_unit_run env package resource s :
  exists l,
    snd (_content_unit env resource TYPE_DEB (pkg_unit_key package)
           (pkg_unit_metadata package) s)
    = mkRun (progress_report s) (dist_packages s) (calls s ++ l)
    /\ Forall (λ c, is_save_or_link c = false) l
    /\ (forall unit,
          fst (_content_unit env resource TYPE_DEB (pkg_unit_key package)
                 (pkg_unit_metadata package) s) = Normal unit ->
          l = content_unit_calls env (calls s) package resource
          /\ unit = unit_for package resource).
Proof.
  unfold _content_unit, init_unit, os_path_exists, os_makedirs, shutil_copy,
    get_calls, content_unit_calls.
  exec. unfold call, record_call. cbn [calls progress_report dist_packages storage_path].
  destruct (faults env (calls s) _).
  { eexists [_]. cbn. split; [reflexivity|]. split; [repeat constructor|discriminate]. }
  cbn [calls progress_report dist_packages storage_path].
  destruct (faults env (calls s ++ [_]) _).
  { eexists [_; _]. cbn. rewrite <- app_assoc.
    split; [reflexivity|]. split; [repeat constructor|discriminate]. }
  cbn [calls progress_report dist_packages storage_path].
  rewrite <- !app_assoc. cbn [app].
  destruct (fs_exists env _ _); cbn [negb calls progress_report dist_packages].
  - destruct (faults env _ (CopyFile _ _)).
    + eexists [_; _; _]. cbn. rewrite <- !app_assoc.
      split; [reflexivity|]. split; [repeat constructor|discriminate].
    + eexists [_; _; _]. cbn. rewrite <- !app_assoc.
      split; [reflexivity|]. split; [repeat constructor|].
      intros unit [= <-]. split; reflexivity.
  - destruct (faults env _ (MakeDirs _)).
    { eexists [_; _; _]. cbn. rewrite <- !app_assoc.
      split; [reflexivity|]. split; [repeat constructor|discriminate]. }
    cbn [calls progress_report dist_packages].
    destruct (faults env _ (CopyFile _ _)).
    + eexists [_; _; _; _]. cbn. rewrite <- !app_assoc.
      split; [reflexivity|]. split; [repeat constructor|discriminate].
    + eexists [_; _; _; _]. cbn. rewrite <- !app_assoc.
      split; [reflexivity|]. split; [repeat constructor|].
      intros unit [= <-]. split; reflexivity.
Qed.

Lemma content_units_run env package resources s :
  exists l,
    snd (content_units env package resources s)
    = mkRun (progress_report s) (dist_packages s) (calls s ++ l)
    /\ Forall (λ c, is_save_or_link c = false) l
    /\ (forall units,
          fst (content_units env package resources s) = Normal units ->
          l = content_calls_of env (calls s) package resources
          /\ units = unit_for package <$> resources).
Proof.
  revert s. induction resources as [|r rs IH]; intros s;
    cbn [content_units content_calls_of].
  - exists []. cbn. rewrite app_nil_r, run_eta. split; [reflexivity|].
    split; [constructor|]. intros units [= <-]. split; reflexivity.
  - rewrite bind_run.
    destruct (content_unit_run env package r s) as (l1 & E1 & F1 & N1).
    destruct (_content_unit env r TYPE_DEB _ _ s) as [[unit|e] s1];
      cbn [fst snd] in *; subst s1.
    2:{ exists l1. split; [reflexivity|]. split; [exact F1|discriminate]. }
    destruct (N1 unit eq_refl) as [-> ->]. rewrite bind_run.
    match goal with
    | |- context [content_units env package rs ?st] =>
        destruct (IH st) as (l & E & F & N);
        destruct (content_units env package rs st) as [[units|e] s2]
    end; cbn [fst snd calls progress_report dist_packages] in *; subst s2.
    + eexists (_ ++ l). rewrite app_assoc.
      split; [reflexivity|]. split; [apply Forall_app; split; assumption|].
      intros units' [= <-]. destruct (N units eq_refl) as [-> ->].
      split; reflexivity.
    + eexists (_ ++ l). rewrite app_assoc.
      split; [reflexivity|]. split; [apply Forall_app; split; assumption|discriminate].
Qed.

Lemma save_units_run env parent units s :
  exists l,
    snd (save_units env parent units s)
    = mkRun (progress_report s) (dist_packages s) (calls s ++ l)
    /\ (forall u, fst (save_units env parent units s) = Normal u ->
        l = save_calls_of parent units).
Proof.
  revert s. induction units as [|unit units IH]; intros s; cbn [save_units].
  - exists []. cbn. rewrite app_nil_r, run_eta. split; [reflexivity|].
    intros _ _. reflexivity.
  - unfold save_unit, link_unit. exec. unfold call, record_call. cbn.
    destruct (faults env (calls s) (SaveUnit unit)).
    { eexists [_]. cbn. split; [reflexivity|discriminate]. }
    destruct parent as [p|]; cbn.
    + destruct (faults env (calls s ++ [SaveUnit unit]) (LinkUnit p unit)).
      { eexists [_; _]. cbn. rewrite <- app_assoc. split; [reflexivity|discriminate]. }
      cbn.
      match goal with
      | |- context [save_units env (Some p) units ?st] =>
          destruct (IH st) as (l & E & N);
          destruct (save_units env (Some p) units st) as [[[]|e] s2]
      end; cbn [fst snd] in *; subst s2.
      * exists (SaveUnit unit :: LinkUnit p unit :: l). cbn.
        rewrite <- !app_assoc. cbn. split; [reflexivity|].
        intros _ _. rewrite (N tt eq_refl). reflexivity.
      * exists (SaveUnit unit :: LinkUnit p unit :: l). cbn.
        rewrite <- !app_assoc. cbn. split; [reflexivity|discriminate].
    + match goal with
      | |- context [save_units env None units ?st] =>
          destruct (IH st) as (l & E & N);
          destruct (save_units env None units st) as [[[]|e] s2]
      end; cbn [fst snd] in *; subst s2.
      * exists (SaveUnit unit :: l). cbn.
        rewrite <- !app_assoc. cbn. split; [reflexivity|].
        intros _ _. rewrite (N tt eq_refl). reflexivity.
      * exists (SaveUnit unit :: l). cbn.
        rewrite <- !app_assoc. cbn. split; [reflexivity|discriminate].
Qed.

Lemma content_units_from_package_run env package s :
  exists l,
    snd (_content_units_from_package env package s)
    = mkRun (progress_report s) (dist_packages s) (calls s ++ l)
    /\ Forall (λ c, is_save_or_link c = false) l
    /\ (forall units,
          fst (_content_units_from_package env package s) = Normal units ->
          l = content_calls env (calls s) package
          /\ units = unit_for package <$> pkg_resources package).
Proof.
  unfold _content_units_from_package, download_resources, content_calls.
  exec. unfold call, record_call. cbn.
  destruct (faults env (calls s) _).
  { eexists [_]. cbn. split; [reflexivity|]. split; [repeat constructor|discriminate]. }
  cbn.
  match goal with
  | |- context [content_units env package _ ?st] =>
      destruct (content_units_run env package (pkg_resources package) st)
        as (l & E & F & N)
  end.
  exists (DownloadResources (pkg_resources package) :: l). rewrite E. cbn.
  rewrite <- app_assoc. split; [reflexivity|]. split; [repeat constructor; exact F|].
  intros units Hu. destruct (N units Hu) as [-> ->]. split; reflexivity.
Qed.

Lemma add_new_package_run env package s :
  _add_new_package env package s
  = match _content_units_from_package env package s with
    | (Raised e, s1) => (Raised e, s1)
    | (Normal units, s1) =>
        if bool_decide (package_type package = "source")
        then
          match call env (InitUnit TYPE_DEB (pkg_unit_key package)
                            (pkg_unit_metadata package) "") s1 with
          | (Raised e, s2) => (Raised e, s2)
          | (Normal _, s2) =>
              match call env (SaveUnit (parent_unit package)) s2 with
              | (Raised e, s3) => (Raised e, s3)
              | (Normal _, s3) => save_units env (Some (parent_unit package)) units s3
              end
          end
        else save_units env None units s1
    end.
Proof.
  unfold _add_new_package. rewrite bind_run.
  destruct (_content_units_from_package env package s) as [[units|e] s1]; [|reflexivity].
  destruct (bool_decide _).
  - unfold init_unit, save_unit. rewrite !bind_run.
    destruct (call env (InitUnit _ _ _ _) s1) as [[[]|e] s2]; [|reflexivity].
    cbn [mret M_ret]. rewrite !bind_run.
    fold (parent_unit package).
    destruct (call env (SaveUnit _) s2) as [[[]|e] s3]; reflexivity.
  - rewrite bind_run. cbn [mret M_ret]. rewrite bind_run. reflexivity.
Qed.



(** X22: [_add_new_package] saves or links a unit only after every resource
    of the package has been downloaded and copied: if any of its calls is a
    [save_unit] or [link_unit], [_content_units_from_package] had returned
    all units. *)
Theorem nothing_saved_before_all_copied env package s :
  exists l,
    calls (snd (_add_new_package env package s)) = calls s ++ l
    /\ ((exists c, c ∈ l /\ is_save_or_link c = true) ->
        fst (_content_units_from_package env package s)
        = Normal (unit_for package <$> pkg_resources package)
        /\ exists l2, l = content_calls env (calls s) package ++ l2).
Proof.
  rewrite add_new_package_run.
  destruct (content_units_from_package_run env package s) as (l1 & E1 & F1 & N1).
  destruct (_content_units_from_package env package s) as [[units|e] s1];
    cbn [fst snd] in *; subst s1.
  2:{ exists l1. split; [reflexivity|]. intros (c & Hc & Hs).
      rewrite Forall_forall in F1. rewrite (F1 c Hc) in Hs. discriminate Hs. }
  destruct (N1 units eq_refl) as [-> ->].
  assert (forall s2 : RunState,
            (exists l2, calls s2 = calls s ++ content_calls env (calls s) package ++ l2) ->
            exists l, calls s2 = calls s ++ l
              /\ ((exists c, c ∈ l /\ is_save_or_link c = true) ->
                  Normal (unit_for package <$> pkg_resources package)
                  = Normal (unit_for package <$> pkg_resources package)
                  /\ exists l2, l = content_calls env (calls s) package ++ l2)) as Hend.
  { intros s2 (l2 & E). exists (content_calls env (calls s) package ++ l2).
    split; [exact E|]. intros _. split; [reflexivity|]. eauto. }
  destruct (bool_decide _).
  - unfold call, record_call. cbn [calls progress_report dist_packages].
    destruct (faults env _ (InitUnit _ _ _ _)).
    { apply Hend. eexists [_]. cbn [snd calls]. rewrite <- app_assoc. reflexivity. }
    cbn [calls progress_report dist_packages].
    destruct (faults env _ (SaveUnit _)).
    { apply Hend. eexists [_; _]. cbn [snd calls]. rewrite <- !app_assoc. reflexivity. }
    match goal with
    | |- context [save_units env ?p ?u ?st] =>
        destruct (save_units_run env p u st) as (l2 & E2 & _)
    end.
    apply Hend. rewrite E2. eexists (_ :: _ :: l2). cbn [snd calls].
    rewrite <- !app_assoc. reflexivity.
  - match goal with
    | |- context [save_units env ?p ?u ?st] =>
        destruct (save_units_run env p u st) as (l2 & E2 & _)
    end.
    apply Hend. rewrite E2. exists l2. cbn [snd calls]. rewrite <- !app_assoc. reflexivity.
Qed.

End SyncExtras.
